(** * SatTracker: a shallow embedding of [SatTracker.py]

    The program fetches a two-line element set for a NORAD catalogue
    number over HTTP, asks an orbital propagator for the sub-satellite
    point, draws it on a map and does so in a read-eval loop.

    Python values are embedded as Rocq data ([pystr], [pyval], primitive
    binary64 floats), exceptions as an error result, and every observable
    action of the program (prompt, print, log record, HTTP request, file
    write, browser launch) as an event of a trace.  The third-party
    libraries (requests, skyfield, folium) are not part of the program:
    their answers are the fields of a [World] oracle. *)

From Stdlib Require Import ZArith NArith List String Ascii Lia Bool.
From Stdlib Require Import PrimFloat FloatOps SpecFloat.
From Stdlib Require Import DecimalPos DecimalN.
From stdpp Require Import gmap.
Import ListNotations.

Set Default Proof Using "Type".
(* set_solver clears hypotheses that are not always there *)
Set Warnings "-clear-no-such-hyp".
Local Open Scope N_scope.

(** ** Python strings

    A [str] is a sequence of Unicode code points. *)

Definition codepoint := N.
Definition pystr := list codepoint.

(** An ASCII string literal of the source as a [pystr]. *)
Fixpoint lit (s : string) : pystr :=
  match s with
  | EmptyString => []
  | String a r => N_of_ascii a :: lit r
  end.
Arguments lit : simpl never.

Definition in_range (c : codepoint) (r : N * N) : bool :=
  (fst r <=? c) && (c <=? snd r).

(** Code points for which [str.isspace] holds (bidirectional class WS, B
    or S, or general category Zs). *)
Definition whitespace_ranges : list (N * N) :=
  [ (0x09, 0x0D); (0x1C, 0x20); (0x85, 0x85); (0xA0, 0xA0);
    (0x1680, 0x1680); (0x2000, 0x200A); (0x2028, 0x2029);
    (0x202F, 0x202F); (0x205F, 0x205F); (0x3000, 0x3000) ].

Definition isspace_char (c : codepoint) : bool :=
  existsb (in_range c) whitespace_ranges.

(** Code points of Numeric_Type=Decimal (general category Nd), Unicode
    14.0.  Every range is a run of the digits 0..9 in order (the last but
    four holds five such runs), so that the value of [c] in a range
    starting at [lo] is [(c - lo) mod 10]. *)
Definition decimal_ranges : list (N * N) :=
  [ (0x30, 0x39); (0x660, 0x669); (0x6F0, 0x6F9); (0x7C0, 0x7C9);
    (0x966, 0x96F); (0x9E6, 0x9EF); (0xA66, 0xA6F); (0xAE6, 0xAEF);
    (0xB66, 0xB6F); (0xBE6, 0xBEF); (0xC66, 0xC6F); (0xCE6, 0xCEF);
    (0xD66, 0xD6F); (0xDE6, 0xDEF); (0xE50, 0xE59); (0xED0, 0xED9);
    (0xF20, 0xF29); (0x1040, 0x1049); (0x1090, 0x1099); (0x17E0, 0x17E9);
    (0x1810, 0x1819); (0x1946, 0x194F); (0x19D0, 0x19D9); (0x1A80, 0x1A89);
    (0x1A90, 0x1A99); (0x1B50, 0x1B59); (0x1BB0, 0x1BB9); (0x1C40, 0x1C49);
    (0x1C50, 0x1C59); (0xA620, 0xA629); (0xA8D0, 0xA8D9); (0xA900, 0xA909);
    (0xA9D0, 0xA9D9); (0xA9F0, 0xA9F9); (0xAA50, 0xAA59); (0xABF0, 0xABF9);
    (0xFF10, 0xFF19); (0x104A0, 0x104A9); (0x10D30, 0x10D39);
    (0x11066, 0x1106F); (0x110F0, 0x110F9); (0x11136, 0x1113F);
    (0x111D0, 0x111D9); (0x112F0, 0x112F9); (0x11450, 0x11459);
    (0x114D0, 0x114D9); (0x11650, 0x11659); (0x116C0, 0x116C9);
    (0x11730, 0x11739); (0x118E0, 0x118E9); (0x11950, 0x11959);
    (0x11C50, 0x11C59); (0x11D50, 0x11D59); (0x11DA0, 0x11DA9);
    (0x16A60, 0x16A69); (0x16AC0, 0x16AC9); (0x16B50, 0x16B59);
    (0x1D7CE, 0x1D7FF); (0x1E140, 0x1E149); (0x1E2F0, 0x1E2F9);
    (0x1E950, 0x1E959); (0x1FBF0, 0x1FBF9) ].

(** Code points of Numeric_Type=Digit that are not decimal: superscripts,
    subscripts, circled and parenthesised digits and the like. *)
Definition other_digit_ranges : list (N * N) :=
  [ (0xB2, 0xB3); (0xB9, 0xB9); (0x1369, 0x1371); (0x19DA, 0x19DA);
    (0x2070, 0x2070); (0x2074, 0x2079); (0x2080, 0x2089); (0x2460, 0x2468);
    (0x2474, 0x247C); (0x2488, 0x2490); (0x24EA, 0x24EA); (0x24F5, 0x24FD);
    (0x24FF, 0x24FF); (0x2776, 0x277E); (0x2780, 0x2788); (0x278A, 0x2792);
    (0x10A40, 0x10A43); (0x10E60, 0x10E68); (0x11052, 0x1105A);
    (0x1F100, 0x1F10A) ].

(** [Py_UNICODE_TODECIMAL]: the value of a decimal digit. *)
Definition decimal_value (c : codepoint) : option N :=
  match find (in_range c) decimal_ranges with
  | Some (lo, _) => Some ((c - lo) mod 10)
  | None => None
  end.

Definition isdecimal_char (c : codepoint) : bool :=
  existsb (in_range c) decimal_ranges.

(** [Py_UNICODE_ISDIGIT]. *)
Definition isdigit_char (c : codepoint) : bool :=
  isdecimal_char c || existsb (in_range c) other_digit_ranges.

(** [str.isdigit()]: every character is a digit and there is at least
    one character. *)
Definition isdigit (s : pystr) : bool :=
  match s with
  | [] => false
  | _ => forallb isdigit_char s
  end.

(** [str.isdecimal()], the test the source does not use. *)
Definition isdecimal (s : pystr) : bool :=
  match s with
  | [] => false
  | _ => forallb isdecimal_char s
  end.

Fixpoint lstrip_by (p : codepoint -> bool) (s : pystr) : pystr :=
  match s with
  | [] => []
  | c :: r => if p c then lstrip_by p r else s
  end.

Definition rstrip_by (p : codepoint -> bool) (s : pystr) : pystr :=
  rev (lstrip_by p (rev s)).

(** [str.strip()] without argument. *)
Definition strip (s : pystr) : pystr :=
  rstrip_by isspace_char (lstrip_by isspace_char s).

Definition ascii_lower (c : codepoint) : codepoint :=
  if (0x41 <=? c) && (c <=? 0x5A) then c + 32 else c.


(** [str(n)] for an [int]: the decimal numeral, with a minus sign for a
    negative number.  It is what an f-string puts for [{satellite_id}]. *)
Fixpoint uint_digits (d : Decimal.uint) : pystr :=
  match d with
  | Decimal.Nil => []
  | Decimal.D0 r => 48 :: uint_digits r
  | Decimal.D1 r => 49 :: uint_digits r
  | Decimal.D2 r => 50 :: uint_digits r
  | Decimal.D3 r => 51 :: uint_digits r
  | Decimal.D4 r => 52 :: uint_digits r
  | Decimal.D5 r => 53 :: uint_digits r
  | Decimal.D6 r => 54 :: uint_digits r
  | Decimal.D7 r => 55 :: uint_digits r
  | Decimal.D8 r => 56 :: uint_digits r
  | Decimal.D9 r => 57 :: uint_digits r
  end.

Definition py_str_int (z : Z) : pystr :=
  match z with
  | Zneg p => 45 :: uint_digits (Pos.to_uint p)
  | _ => uint_digits (N.to_uint (Z.to_N z))
  end.

(** ** Floats and the [.2f] format

    A Python [float] is an IEEE 754 binary64 number.  [format(x, '.2f')]
    is correctly rounded: the exact binary value is rounded to the nearest
    multiple of 1/100, ties to even. *)

Definition round_half_even (num den : Z) : Z :=
  let q := (num / den)%Z in
  let r := (num mod den)%Z in
  match (2 * r ?= den)%Z with
  | Lt => q
  | Gt => (q + 1)%Z
  | Eq => if Z.even q then q else (q + 1)%Z
  end.

(** [|x| * 100] rounded to an integer, for [|x| = m * 2^e]. *)
Definition hundredths (m : positive) (e : Z) : Z :=
  if (0 <=? e)%Z then (Zpos m * 2 ^ e * 100)%Z
  else round_half_even (Zpos m * 100) (2 ^ (- e)).

Definition fixed2 (h : Z) : pystr :=
  py_str_int (h / 100) ++ [46; 48 + Z.to_N ((h mod 100) / 10);
                             48 + Z.to_N ((h mod 100) mod 10)].

Definition sign_prefix (s : bool) : pystr := if s then [45] else [].

Definition format_2f (x : float) : pystr :=
  match Prim2SF x with
  | S754_nan => lit "nan"
  | S754_infinity s => sign_prefix s ++ lit "inf"
  | S754_zero s => sign_prefix s ++ lit "0.00"
  | S754_finite s m e => sign_prefix s ++ fixed2 (hundredths m e)
  end.

(** ** Exceptions

    An exception is represented by its class.  [bases] lists the direct
    base classes as the interpreter, the [json] module and the requests
    library declare them; [except C] catches the instances of the
    subclasses of [C]. *)

Inductive exn :=
  | BaseException | Exception | KeyboardInterrupt | SystemExit
  | LookupError | KeyError | TypeError | ValueError | AttributeError
  | OSError | EOFError | RuntimeError
  | json_JSONDecodeError
  | RequestException | HTTPError | requests_ConnectionError | Timeout
  | ConnectTimeout | ReadTimeout | SSLError | TooManyRedirects
  | InvalidJSONError | requests_JSONDecodeError.

#[global] Instance exn_eq_dec : EqDecision exn.
Proof. solve_decision. Defined.

Definition bases (c : exn) : list exn :=
  match c with
  | BaseException => []
  | Exception | KeyboardInterrupt | SystemExit => [BaseException]
  | LookupError | TypeError | ValueError | AttributeError
  | OSError | RuntimeError | EOFError => [Exception]
  | KeyError => [LookupError]
  | json_JSONDecodeError => [ValueError]
  | RequestException => [OSError]
  | HTTPError | requests_ConnectionError | Timeout
  | TooManyRedirects | InvalidJSONError => [RequestException]
  | ConnectTimeout => [requests_ConnectionError; Timeout]
  | ReadTimeout => [Timeout]
  | SSLError => [requests_ConnectionError]
  | requests_JSONDecodeError => [InvalidJSONError; json_JSONDecodeError]
  end.

Fixpoint issubclass_depth (k : nat) (c d : exn) : bool :=
  bool_decide (c = d) ||
  match k with
  | O => false
  | S k' => existsb (fun b => issubclass_depth k' b d) (bases c)
  end.

(** The hierarchy is six classes deep at most. *)
Definition issubclass (c d : exn) : bool := issubclass_depth 6 c d.

(** [isinstance(e, C)] for a raised exception of class [e]. *)
Definition isinstance (e c : exn) : bool := issubclass e c.
Arguments isinstance : simpl never.

Inductive pyresult (A : Type) : Type :=
  | Ok (a : A)
  | Raise (e : exn).
Arguments Ok {A} a.
Arguments Raise {A} e.

(** ** Values

    The values [response.json()] can return: [None], booleans, integers,
    floats, strings, lists and dictionaries (in insertion order). *)

#[warnings="-register-all"]
Inductive pyval :=
  | PNone
  | PBool (b : bool)
  | PInt (z : Z)
  | PFloat (f : float)
  | PStr (s : pystr)
  | PList (l : list pyval)
  | PDict (items : list (pystr * pyval)).

(** Truth value testing, as in [if tle_data:]. *)
Definition truthy (v : pyval) : bool :=
  match v with
  | PNone => false
  | PBool b => b
  | PInt z => negb (z =? 0)%Z
  | PFloat f => negb (PrimFloat.eqb f 0%float)
  | PStr s => match s with [] => false | _ => true end
  | PList l => match l with [] => false | _ => true end
  | PDict items => match items with [] => false | _ => true end
  end.

Fixpoint dict_lookup (key : pystr) (items : list (pystr * pyval)) : option pyval :=
  match items with
  | [] => None
  | (k, v) :: r => if bool_decide (k = key) then Some v else dict_lookup key r
  end.

(** [obj[key]] for a string key. *)
Definition py_getitem (obj : pyval) (key : pystr) : pyresult pyval :=
  match obj with
  | PDict items =>
      match dict_lookup key items with
      | Some v => Ok v
      | None => Raise KeyError
      end
  | _ => Raise TypeError
  end.

(** [obj.get(key, default)]: only a dictionary has the method. *)
Definition py_get (obj : pyval) (key : pystr) (default : pyval) : pyresult pyval :=
  match obj with
  | PDict items =>
      match dict_lookup key items with
      | Some v => Ok v
      | None => Ok default
      end
  | _ => Raise AttributeError
  end.

(** ** The outside world *)

(** The arguments of [requests.get]. *)
Record Request := {
  req_url : pystr;
  req_headers : list (pystr * pystr);
  req_timeout : Z;
  req_verify : bool
}.

(** What the program reads of a response: the status code and the outcome
    of [response.json()], which raises a [JSONDecodeError] when the body
    is not valid JSON. *)
Record Response := {
  status_code : Z;
  response_json : pyresult pyval
}.

(** The descriptors handed to folium. *)
Record Icon := { icon_color : pystr; icon_name : pystr }.

Inductive Element :=
  | Marker (location : float * float) (popup : pystr) (icon : Icon)
  | CircleMarker (location : float * float) (radius : Z) (popup : pystr)
                 (color : pystr) (fill : bool) (fill_color : pystr).

Record FoliumMap := {
  map_location : float * float;
  zoom_start : Z;
  children : list Element
}.

(** The answers of the environment during one iteration of the loop.
    - [requests_get]: the response to a request, or the exception raised;
    - [skyfield_subpoint]: latitude, longitude (degrees) and elevation
      (km) of the sub-satellite point now, for [EarthSatellite(line1,
      line2, name, ...)], or the exception raised on the way;
    - [folium_fault]: the exception folium raises, if any, while the
      document is assembled;
    - [save_fault]: the exception, if any, of writing the named file;
    - [os_path_abspath]: [os.path.abspath] in the working directory. *)
Record World := {
  requests_get : Request -> pyresult Response;
  skyfield_subpoint : pyval -> pyval -> pyval -> pyresult (float * float * float);
  folium_fault : FoliumMap -> option exn;
  save_fault : pystr -> option exn;
  os_path_abspath : pystr -> pystr
}.

(** ** Events *)

Inductive loglevel := DEBUG | ERROR.

(** One constructor per logging call of the source, with the values its
    f-string interpolates. *)
Inductive logrecord :=
  | SendingGet (url : pystr) (headers : list (pystr * pystr))
  | ReceivedStatus (code : Z)
  | ResponseJSON (tle_data : pyval)
  | HTTPErrorOccurred (e : exn)
  | ConnectionErrorOccurred (e : exn)
  | TimeoutErrorOccurred (e : exn)
  | AnErrorOccurred (e : exn)
  | JSONDecodeErrorOccurred (e : exn)
  | SatelliteName (name : pyval)
  | TLELine1 (line1 : pyval)
  | TLELine2 (line2 : pyval)
  | SatellitePosition (latitude longitude elevation : float)
  | ErrorCalculating (e : exn)
  | ErrorCreatingMap (e : exn).

Inductive event :=
  | Prompt (text : pystr)
  | Print (text : pystr)
  | Log (level : loglevel) (record : logrecord)
  | HttpGet (request : Request)
  | Save (filename : pystr) (document : FoliumMap)
  | BrowserOpen (url : pystr).

Definition trace := list event.

(** ** Computations: a trace of events and a value or an exception *)

Definition M (A : Type) : Type := trace * pyresult A.

#[global] Instance M_ret : MRet M := fun A a => ([], Ok a).

#[global] Instance M_bind : MBind M := fun A B f m =>
  match m with
  | (t, Ok a) => let '(t', r) := f a in (t ++ t', r)
  | (t, Raise e) => (t, Raise e)
  end.

Definition emit (ev : event) : M unit := ([ev], Ok tt).

Definition lift {A} (r : pyresult A) : M A := ([], r).

(** [try: body except ...: handler]: [handler e] is the clause that
    catches [e], if there is one. *)
Definition try_except {A} (body : M A) (handler : exn -> option (M A)) : M A :=
  match body with
  | (t, Ok a) => (t, Ok a)
  | (t, Raise e) =>
      match handler e with
      | Some (t', r) => (t ++ t', r)
      | None => (t, Raise e)
      end
  end.

Definition events {A} (m : M A) : trace := fst m.
Definition outcome {A} (m : M A) : pyresult A := snd m.

(** The two states of the control loop. *)
Inductive loop_state := Prompting | Terminated.

(** The files of the working directory after the [Save] events of a
    trace: a write creates the file or replaces its content. *)
Fixpoint files_after (t : trace) (fs : gmap pystr FoliumMap) : gmap pystr FoliumMap :=
  match t with
  | [] => fs
  | Save filename document :: r => files_after r (<[filename := document]> fs)
  | _ :: r => files_after r fs
  end.

Definition http_requests (t : trace) : list Request :=
  omap (fun ev => match ev with HttpGet r => Some r | _ => None end) t.

Definition prompts (t : trace) : list pystr :=
  omap (fun ev => match ev with Prompt p => Some p | _ => None end) t.

Definition printed (t : trace) : list pystr :=
  omap (fun ev => match ev with Print p => Some p | _ => None end) t.

Definition saved (t : trace) : list pystr :=
  omap (fun ev => match ev with Save f _ => Some f | _ => None end) t.

(** ** The program *)

Section Program.

(** Facts of the interpreter the program runs on.
    - [ucd_lower s i]: the lowercase expansion, by the Unicode case
      tables, of the non-ASCII character at index [i] of [s];
    - [int_max_str_digits]: [sys.get_int_max_str_digits()], 0 when
      integer conversion has no length limit;
    - [py_repr]: [str()] of a value that is not a string;
    - [json_dumps]: [json.dumps(value, indent=4)]. *)
Variable ucd_lower : pystr -> nat -> pystr.
Variable int_max_str_digits : nat.
Variable py_repr : pyval -> pystr.
Variable json_dumps : pyval -> pystr.

(** [str.lower()]. *)
Definition lower (s : pystr) : pystr :=
  concat (imap (fun i c => if c <? 128 then [ascii_lower c] else ucd_lower s i) s).

(** Whitespace that [int()] skips around the numeral: the ASCII
    characters of C's [isspace], and the Unicode spaces from 127 on. *)
Definition int_space (c : codepoint) : bool :=
  if c <? 127 then (c =? 32) || ((9 <=? c) && (c <=? 13)) else isspace_char c.

(** Decimal digits of any script, single underscores between digits. *)
Fixpoint int_digits (after_digit : bool) (acc : Z) (s : pystr) : option Z :=
  match s with
  | [] => if after_digit then Some acc else None
  | c :: r =>
      if c =? 95 then (if after_digit then int_digits false acc r else None)
      else match decimal_value c with
           | Some d => int_digits true (10 * acc + Z.of_N d)%Z r
           | None => None
           end
  end.

Definition digit_count (s : pystr) : nat :=
  length (filter (fun c => c ≠ 95) s).

(** [int(s)] for a string [s], base 10. *)
Definition py_int (s : pystr) : pyresult Z :=
  let t := lstrip_by int_space s in
  let '(negative, t) :=
    match t with
    | c :: r => if c =? 45 then (true, r) else if c =? 43 then (false, r) else (false, t)
    | [] => (false, t)
    end in
  let t := rstrip_by int_space t in
  match int_digits false 0 t with
  | None => Raise ValueError
  | Some n =>
      if (0 <? int_max_str_digits)%nat && (int_max_str_digits <? digit_count t)%nat
      then Raise ValueError
      else Ok (if negative then (- n)%Z else n)
  end.

(** What an f-string puts for [{value}]. *)
Definition py_str (v : pyval) : pystr :=
  match v with
  | PStr s => s
  | _ => py_repr v
  end.

(** The degree sign of the popup text. *)
Definition degree_sign : codepoint := 0xB0.

Section Iteration.

Variable w : World.

Definition headers : list (pystr * pystr) :=
  [ (lit "User-Agent",
     lit "Mozilla/5.0 (Windows NT 10.0; Win64; x64) " ++
     lit "AppleWebKit/537.36 (KHTML, like Gecko) " ++
     lit "Chrome/58.0.3029.110 Safari/537.3");
    (lit "Accept", lit "application/json") ].

Definition tle_url (satellite_id : Z) : pystr :=
  lit "https://tle.ivanstanojevic.me/api/tle/" ++ py_str_int satellite_id.

(** [requests.get(url, headers=headers, timeout=10, verify=False)]. *)
Definition get (request : Request) : M Response :=
  emit (HttpGet request);; lift (requests_get w request).

(** [Response.raise_for_status()]: an [HTTPError] for a client error
    (4xx) or a server error (5xx) status, nothing otherwise. *)
Definition raise_for_status (response : Response) : M unit :=
  if (400 <=? status_code response)%Z && (status_code response <? 600)%Z
  then lift (Raise HTTPError)
  else mret tt.

(** The [except] clauses of [fetch_tle], in their order. *)
Definition fetch_handler (e : exn) : option (M (option pyval)) :=
  if isinstance e HTTPError then
    Some (emit (Log ERROR (HTTPErrorOccurred e));; mret None)
  else if isinstance e requests_ConnectionError then
    Some (emit (Log ERROR (ConnectionErrorOccurred e));; mret None)
  else if isinstance e Timeout then
    Some (emit (Log ERROR (TimeoutErrorOccurred e));; mret None)
  else if isinstance e RequestException then
    Some (emit (Log ERROR (AnErrorOccurred e));; mret None)
  else if isinstance e json_JSONDecodeError then
    Some (emit (Log ERROR (JSONDecodeErrorOccurred e));; mret None)
  else None.

(** The request of [fetch_tle], as [requests.get] receives it. *)
Definition tle_request (satellite_id : Z) : Request :=
  {| req_url := tle_url satellite_id; req_headers := headers;
     req_timeout := 10; req_verify := false |}.

Definition fetch_tle (satellite_id : Z) : M pyval :=
  let url := tle_url satellite_id in
  returned ← try_except
    (emit (Log DEBUG (SendingGet url headers));;
     response ← get {| req_url := url; req_headers := headers;
                       req_timeout := 10; req_verify := false |};
     emit (Log DEBUG (ReceivedStatus (status_code response)));;
     raise_for_status response;;
     tle_data ← lift (response_json response);
     emit (Log DEBUG (ResponseJSON tle_data));;
     mret (Some tle_data))
    fetch_handler;
  match returned with
  | Some tle_data => mret tle_data
  | None => mret PNone
  end.

Definition calculate_satellite_position (tle_data : pyval)
  : M (option (float * float)) :=
  try_except
    (line1 ← lift (py_getitem tle_data (lit "line1"));
     line2 ← lift (py_getitem tle_data (lit "line2"));
     name ← lift (py_getitem tle_data (lit "name"));
     emit (Log DEBUG (SatelliteName name));;
     emit (Log DEBUG (TLELine1 line1));;
     emit (Log DEBUG (TLELine2 line2));;
     subpoint ← lift (skyfield_subpoint w line1 line2 name);
     let '(latitude, longitude, elevation) := subpoint in
     emit (Log DEBUG (SatellitePosition latitude longitude elevation));;
     mret (Some (latitude, longitude)))
    (fun e =>
       if isinstance e Exception
       then Some (emit (Log ERROR (ErrorCalculating e));; mret None)
       else None).

Definition marker_popup (latitude longitude : float) (satellite_name : pyval) : pystr :=
  py_str satellite_name ++ lit "<br>Lat: " ++ format_2f latitude ++
  [degree_sign] ++ lit ", Lon: " ++ format_2f longitude ++ [degree_sign].

(** The document [create_map] assembles. *)
Definition sat_map_of (latitude longitude : float) (satellite_name : pyval) : FoliumMap :=
  {| map_location := (latitude, longitude);
     zoom_start := 4;
     children :=
       [ Marker (latitude, longitude)
                (marker_popup latitude longitude satellite_name)
                {| icon_color := lit "red"; icon_name := lit "info-sign" |};
         CircleMarker (latitude, longitude) 10 (py_str satellite_name)
                      (lit "crimson") true (lit "crimson") ] |}.

Definition create_map (latitude longitude : float) (satellite_name : pyval)
  : M (option FoliumMap) :=
  try_except
    (let sat_map := sat_map_of latitude longitude satellite_name in
     match folium_fault w sat_map with
     | Some e => lift (Raise e)
     | None => mret (Some sat_map)
     end)
    (fun e =>
       if isinstance e Exception
       then Some (emit (Log ERROR (ErrorCreatingMap e));; mret None)
       else None).

(** [sat_map.save(map_filename)]. *)
Definition save (sat_map : FoliumMap) (map_filename : pystr) : M unit :=
  match save_fault w map_filename with
  | Some e => lift (Raise e)
  | None => emit (Save map_filename sat_map)
  end.

Definition prompt_text : pystr :=
  lit "Enter the Satellite ID (NORAD ID) or 'exit' to quit: ".

Definition map_filename_of (satellite_id : Z) : pystr :=
  py_str_int satellite_id ++ lit "_location_map.html".

(** One turn of the [while True] loop of [main], on the line that
    [input] returns; [Terminated] stands for [break], [Prompting] for
    [continue] and for reaching the end of the body. *)
Definition main_body (line : pystr) : M loop_state :=
  emit (Prompt prompt_text);;
  let user_input := strip line in
  if bool_decide (lower user_input = lit "exit") then
    emit (Print (lit "Exiting the program. Goodbye!"));;
    mret Terminated
  else if negb (isdigit user_input) then
    emit (Print (lit "Invalid input. Please enter a numeric Satellite ID."));;
    mret Prompting
  else
    satellite_id ← lift (py_int user_input);
    tle_data ← fetch_tle satellite_id;
    (if truthy tle_data then
       position ← calculate_satellite_position tle_data;
       match position with
       | Some (latitude, longitude) =>
           satellite_name ←
             lift (py_get tle_data (lit "name") (PStr (lit "Unknown Satellite")));
           sat_map ← create_map latitude longitude satellite_name;
           match sat_map with
           | Some sat_map =>
               let map_filename := map_filename_of satellite_id in
               save sat_map map_filename;;
               emit (Print ([10] ++ lit "TLE Data Retrieved Successfully for " ++
                            py_str satellite_name ++ lit ":"));;
               emit (Print (json_dumps tle_data));;
               emit (Print ([10] ++ lit "Satellite location map has been saved to " ++
                            map_filename ++ lit "."));;
               let map_path := os_path_abspath w map_filename in
               emit (BrowserOpen (lit "file://" ++ map_path))
           | None => emit (Print (lit "Failed to create the map."))
           end
       | None => emit (Print (lit "Failed to calculate satellite position."))
       end
     else emit (Print (lit "Failed to retrieve TLE data." ++ [10])));;
    mret Prompting.

End Iteration.

(** [main]: the loop over the lines typed, each with the state of the
    world at its turn.  When the lines are used up the loop is in the
    state [Prompting], about to ask for the next one.  An exception that
    leaves a turn leaves [main]: nothing in it catches one.  (The end of
    the input stream, on which [input] raises [EOFError], is not a line
    and is left out.) *)
Fixpoint main (turns : list (World * pystr)) : M loop_state :=
  match turns with
  | [] => mret Prompting
  | (w, line) :: rest =>
      state ← main_body w line;
      match state with
      | Terminated => mret Terminated
      | Prompting => main rest
      end
  end.

End Program.

(** ** Vocabulary of the specification *)


Definition spaces (s : pystr) : Prop :=
  Forall (fun c => isspace_char c = true) s.

Definition contains (needle text : pystr) : Prop :=
  exists pre post, text = pre ++ needle ++ post.

Definition lookup_header (name : pystr) (hs : list (pystr * pystr)) : option pystr :=
  snd <$> find (fun h => bool_decide (fst h = name)) hs.

Definition is_2xx (code : Z) : bool := (200 <=? code)%Z && (code <? 300)%Z.

(** A non-empty string of the digits 0 to 9, and the number it denotes. *)
Definition ascii_digits (s : pystr) : Prop :=
  s <> [] /\ Forall (fun c => 48 <= c <= 57) s.

Definition decimal_number (s : pystr) : Z :=
  fold_left (fun acc c => (10 * acc + Z.of_N (c - 48))%Z) s 0%Z.

(** A trace without its log records: what the program does to the user,
    the network, the disk and the browser. *)
Definition effects (t : trace) : trace :=
  omap (fun ev => match ev with Log _ _ => None | _ => Some ev end) t.

(** The records logged at level ERROR. *)
Definition error_records (t : trace) : list logrecord :=
  omap (fun ev => match ev with Log ERROR r => Some r | _ => None end) t.

Definition element_location (c : Element) : float * float :=
  match c with
  | Marker location _ _ => location
  | CircleMarker location _ _ _ _ _ => location
  end.

(** The answers that [if tle_data:] takes for absent. *)
Definition absent_answer (v : pyval) : Prop :=
  v = PNone \/ v = PBool false \/ v = PInt 0 \/
  (exists f, v = PFloat f /\ PrimFloat.eqb f 0 = true) \/
  v = PStr [] \/ v = PList [] \/ v = PDict [].

(** Some [except] clause of [fetch_tle] catches [e]. *)
Definition fetch_catches (e : exn) : bool :=
  match fetch_handler e with Some _ => true | None => false end.

Section Vocabulary.

Variable ucd_lower : pystr -> nat -> pystr.
Variable int_max_str_digits : nat.
Variable py_repr : pyval -> pystr.

(** The line passes the two tests of the loop and names the catalogue
    number [satellite_id]. *)
Definition accepted (line : pystr) (satellite_id : Z) : Prop :=
  lower ucd_lower (strip line) <> lit "exit" /\
  isdigit (strip line) = true /\
  py_int int_max_str_digits (strip line) = Ok satellite_id.

(** A stage of the pipeline returns an absent result for the catalogue
    number; the index is the message the loop has for that stage. *)
Inductive stage_failure (w : World) (satellite_id : Z) : pystr -> Prop :=
  | fetch_failed tle_data :
      outcome (fetch_tle w satellite_id) = Ok tle_data ->
      truthy tle_data = false ->
      stage_failure w satellite_id (lit "Failed to retrieve TLE data." ++ [10])
  | calculation_failed tle_data :
      outcome (fetch_tle w satellite_id) = Ok tle_data ->
      truthy tle_data = true ->
      outcome (calculate_satellite_position w tle_data) = Ok None ->
      stage_failure w satellite_id (lit "Failed to calculate satellite position.")
  | rendering_failed tle_data latitude longitude satellite_name :
      outcome (fetch_tle w satellite_id) = Ok tle_data ->
      truthy tle_data = true ->
      outcome (calculate_satellite_position w tle_data) = Ok (Some (latitude, longitude)) ->
      py_get tle_data (lit "name") (PStr (lit "Unknown Satellite")) = Ok satellite_name ->
      outcome (create_map py_repr w latitude longitude satellite_name) = Ok None ->
      stage_failure w satellite_id (lit "Failed to create the map.").

Variable json_dumps : pyval -> pystr.

(** The body of the loop from the call of [fetch_tle] on, for a line
    that passed the two tests: the three stages and their messages. *)
Definition pipeline (w : World) (satellite_id : Z) : M loop_state :=
  tle_data ← fetch_tle w satellite_id;
  (if truthy tle_data then
     position ← calculate_satellite_position w tle_data;
     match position with
     | Some (latitude, longitude) =>
         satellite_name ←
           lift (py_get tle_data (lit "name") (PStr (lit "Unknown Satellite")));
         sat_map ← create_map py_repr w latitude longitude satellite_name;
         match sat_map with
         | Some sat_map =>
             let map_filename := map_filename_of satellite_id in
             save w sat_map map_filename;;
             emit (Print ([10] ++ lit "TLE Data Retrieved Successfully for " ++
                          py_str py_repr satellite_name ++ lit ":"));;
             emit (Print (json_dumps tle_data));;
             emit (Print ([10] ++ lit "Satellite location map has been saved to " ++
                          map_filename ++ lit "."));;
             let map_path := os_path_abspath w map_filename in
             emit (BrowserOpen (lit "file://" ++ map_path))
         | None => emit (Print (lit "Failed to create the map."))
         end
     | None => emit (Print (lit "Failed to calculate satellite position."))
     end
   else emit (Print (lit "Failed to retrieve TLE data." ++ [10])));;
  mret Prompting.

End Vocabulary.

(** ** Sample interpreters and worlds *)

(** A case table that leaves every non-ASCII character as it is. *)
Definition ucd_identity (s : pystr) (i : nat) : pystr :=
  match s !! i with Some c => [c] | None => [] end.

Definition no_repr (v : pyval) : pystr := lit "<value>".

Definition iss_elements : pyval :=
  PDict [ (lit "name", PStr (lit "ISS (ZARYA)"));
          (lit "line1", PStr (lit "1 25544U 98067A"));
          (lit "line2", PStr (lit "2 25544  51.6400")) ].

(** The floats that the literals [51.50] and [-0.12] denote: 51.5 is a
    binary64 number, -0.12 is not and stands for the nearest one. *)
Definition latitude_51_50 : float := 51.5%float.

#[warnings="-inexact-float"]
Definition longitude_minus_0_12 : float := (-0.12)%float.

(** The service answers [body] with status [code]; the propagator puts
    the satellite over London; nothing else fails. *)
Definition answering (code : Z) (body : pyresult pyval) : World :=
  {| requests_get := fun _ => Ok {| status_code := code; response_json := body |};
     skyfield_subpoint := fun _ _ _ => Ok (latitude_51_50, longitude_minus_0_12, 408%float);
     folium_fault := fun _ => None;
     save_fault := fun _ => None;
     os_path_abspath := fun f => lit "/home/user/" ++ f |}.

(** The service answers the element set and every stage succeeds, but the
    working directory cannot be written to. *)
Definition read_only : World :=
  {| requests_get := fun _ => Ok {| status_code := 200; response_json := Ok iss_elements |};
     skyfield_subpoint := fun _ _ _ => Ok (latitude_51_50, longitude_minus_0_12, 408%float);
     folium_fault := fun _ => None;
     save_fault := fun _ => Some OSError;
     os_path_abspath := fun f => lit "/home/user/" ++ f |}.

(** No network: [requests.get] raises [e]. *)
Definition unreachable (e : exn) : World :=
  {| requests_get := fun _ => Raise e;
     skyfield_subpoint := fun _ _ _ => Raise ValueError;
     folium_fault := fun _ => None;
     save_fault := fun _ => None;
     os_path_abspath := fun f => lit "/home/user/" ++ f |}.

(** The service answers the element set, and the propagator or folium
    fail as told. *)
Definition faulty (propagation : option exn) (rendering : option exn) : World :=
  {| requests_get := fun _ => Ok {| status_code := 200; response_json := Ok iss_elements |};
     skyfield_subpoint := fun _ _ _ =>
       match propagation with
       | Some e => Raise e
       | None => Ok (latitude_51_50, longitude_minus_0_12, 408%float)
       end;
     folium_fault := fun _ => rendering;
     save_fault := fun _ => None;
     os_path_abspath := fun f => lit "/home/user/" ++ f |}.

(** * Properties *)

(** ** Computations *)

Lemma bind_unfold {A B} (m : M A) (f : A -> M B) :
  m ≫= f =
  match outcome m with
  | Ok a => (events m ++ events (f a), outcome (f a))
  | Raise e => (events m, Raise e)
  end.
Proof.
  destruct m as [t [a|e]]; cbn; [|reflexivity].
  destruct (f a); reflexivity.
Qed.

Lemma outcome_bind {A B} (m : M A) (f : A -> M B) :
  outcome (m ≫= f) =
  match outcome m with Ok a => outcome (f a) | Raise e => Raise e end.
Proof. rewrite bind_unfold. destruct (outcome m); reflexivity. Qed.

Lemma events_bind {A B} (m : M A) (f : A -> M B) :
  events (m ≫= f) =
  events m ++ match outcome m with Ok a => events (f a) | Raise _ => [] end.
Proof.
  rewrite bind_unfold. destruct (outcome m); cbn; [reflexivity|].
  symmetry; apply app_nil_r.
Qed.

Lemma M_eta {A} (m : M A) : m = (events m, outcome m).
Proof. destruct m; reflexivity. Qed.

(** The names in the working directory after a trace: those that were
    there and those that were written. *)
Lemma dom_files_after (t : trace) (fs : gmap pystr FoliumMap) :
  dom (files_after t fs) = list_to_set (saved t) ∪ dom fs.
Proof.
  revert fs. induction t as [|ev t IH]; intros fs; cbn.
  - set_solver.
  - destruct ev; cbn; rewrite IH; try reflexivity.
    rewrite dom_insert_L. set_solver.
Qed.

Lemma files_after_unsaved (t : trace) (fs : gmap pystr FoliumMap) :
  saved t = [] -> files_after t fs = fs.
Proof.
  induction t as [|ev t IH]; intros H; [reflexivity|].
  destruct ev; cbn in *; try (apply IH; exact H). discriminate.
Qed.

(** After a trace with one write, the file holds the document written. *)
Lemma files_after_saved_once (t : trace) (fs : gmap pystr FoliumMap) filename :
  saved t = [filename] ->
  exists document,
    In (Save filename document) t /\ files_after t fs !! filename = Some document.
Proof.
  revert fs. induction t as [|ev t IH]; intros fs H; [discriminate|].
  destruct ev; cbn in H;
    try (destruct (IH fs H) as (d & Hin & Hd); exists d; split; [right; exact Hin|exact Hd]).
  injection H as -> Hrest. exists document. split; [left; reflexivity|].
  cbn. rewrite (files_after_unsaved _ _ Hrest). apply lookup_insert_eq.
Qed.

(** ** Strings *)

Lemma lstrip_by_app p (pre s : pystr) :
  Forall (fun c => p c = true) pre -> lstrip_by p (pre ++ s) = lstrip_by p s.
Proof.
  induction 1 as [|c pre Hc _ IH]; cbn; [reflexivity|].
  rewrite Hc. exact IH.
Qed.

Lemma rstrip_by_app p (s post : pystr) :
  Forall (fun c => p c = true) post -> rstrip_by p (s ++ post) = rstrip_by p s.
Proof.
  intros H. unfold rstrip_by. rewrite rev_app_distr, lstrip_by_app; [reflexivity|].
  apply Forall_rev. exact H.
Qed.

(** A string whose first and last characters are not spaces is what
    [strip] leaves of it when it is wrapped in spaces. *)
Lemma strip_by_wrapped p (pre post v : pystr) c :
  Forall (fun c => p c = true) pre ->
  Forall (fun c => p c = true) post ->
  p c = false ->
  lstrip_by p (rev (c :: v)) = rev (c :: v) ->
  rstrip_by p (lstrip_by p (pre ++ (c :: v) ++ post)) = c :: v.
Proof.
  intros Hpre Hpost Hc Hlast.
  rewrite lstrip_by_app by exact Hpre.
  change (lstrip_by p ((c :: v) ++ post))
    with (if p c then lstrip_by p (v ++ post) else (c :: v) ++ post).
  rewrite Hc, rstrip_by_app by exact Hpost.
  unfold rstrip_by. rewrite Hlast. apply rev_involutive.
Qed.

Lemma lit_exit : lit "exit" = [101; 120; 105; 116].
Proof. reflexivity. Qed.




(** ** The fetcher *)

Section Fetcher.

Variable w : World.
Variable satellite_id : Z.

Ltac fetch_cases :=
  unfold fetch_tle, get, raise_for_status, try_except, fetch_handler, lift, emit;
  fold (tle_request satellite_id);
  destruct (requests_get w (tle_request satellite_id)) as [[code [v|e]]|e];
  cbn -[Z.leb Z.ltb tle_request];
  try destruct ((400 <=? code)%Z && (code <? 600)%Z);
  try destruct e.

Lemma fetch_tle_http_requests :
  http_requests (events (fetch_tle w satellite_id)) = [tle_request satellite_id].
Proof. fetch_cases; reflexivity. Qed.

Lemma fetch_tle_saved : saved (events (fetch_tle w satellite_id)) = [].
Proof. fetch_cases; reflexivity. Qed.

(** What [fetch_tle] returns, by what the service does. *)
Lemma fetch_tle_outcome :
  outcome (fetch_tle w satellite_id) =
  match requests_get w (tle_request satellite_id) with
  | Raise e => if fetch_catches e then Ok PNone else Raise e
  | Ok response =>
      if (400 <=? status_code response)%Z && (status_code response <? 600)%Z
      then Ok PNone
      else match response_json response with
           | Ok tle_data => Ok tle_data
           | Raise e => if fetch_catches e then Ok PNone else Raise e
           end
  end.
Proof. fetch_cases; reflexivity. Qed.

(** C7: a fetch sends one request, a GET of the fixed address followed by
    [/api/tle/] and the catalogue number, with the header [Accept:
    application/json], the fixed [User-Agent], a timeout of 10 and
    certificate verification switched off. *)
Theorem fetch_sends_the_fixed_request :
  http_requests (events (fetch_tle w satellite_id)) = [tle_request satellite_id] /\
  req_url (tle_request satellite_id) =
    lit "https://tle.ivanstanojevic.me" ++ lit "/api/tle/" ++ py_str_int satellite_id /\
  lookup_header (lit "Accept") (req_headers (tle_request satellite_id)) =
    Some (lit "application/json") /\
  lookup_header (lit "User-Agent") (req_headers (tle_request satellite_id)) =
    Some (lit ("Mozilla/5.0 (Windows NT 10.0; Win64; x64) AppleWebKit/537.36 " ++
               "(KHTML, like Gecko) Chrome/58.0.3029.110 Safari/537.3")) /\
  req_timeout (tle_request satellite_id) = 10%Z /\
  req_verify (tle_request satellite_id) = false.
Proof.
  split; [apply fetch_tle_http_requests|].
  repeat split; reflexivity.
Qed.

(** C1, amended: when [requests.get] raises a connection error or a
    timeout, when the response has a 4xx or 5xx status, and when
    [response.json()] raises a [JSONDecodeError] (that of [json], or
    that of requests, a [RequestException]), [fetch_tle] returns [None]
    and no exception leaves it; on a 2xx response on which
    [response.json()] returns a value, [fetch_tle] returns that value. *)
Theorem fetch_tle_failures_are_absent :
  (forall e,
     requests_get w (tle_request satellite_id) = Raise e ->
     isinstance e requests_ConnectionError = true \/ isinstance e Timeout = true ->
     outcome (fetch_tle w satellite_id) = Ok PNone) /\
  (forall response,
     requests_get w (tle_request satellite_id) = Ok response ->
     (400 <= status_code response < 600)%Z ->
     outcome (fetch_tle w satellite_id) = Ok PNone) /\
  (forall response e,
     requests_get w (tle_request satellite_id) = Ok response ->
     response_json response = Raise e ->
     isinstance e json_JSONDecodeError = true \/ isinstance e RequestException = true ->
     outcome (fetch_tle w satellite_id) = Ok PNone) /\
  (forall response tle_data,
     requests_get w (tle_request satellite_id) = Ok response ->
     is_2xx (status_code response) = true ->
     response_json response = Ok tle_data ->
     outcome (fetch_tle w satellite_id) = Ok tle_data).
Proof.
  rewrite fetch_tle_outcome. repeat split.
  - intros e -> He.
    assert (fetch_catches e = true) as -> by (destruct e, He; (reflexivity || discriminate)).
    reflexivity.
  - intros response -> [Hlo Hhi].
    apply Z.leb_le in Hlo. apply Z.ltb_lt in Hhi. rewrite Hlo, Hhi. reflexivity.
  - intros response e -> -> He.
    assert (fetch_catches e = true) as -> by (destruct e, He; (reflexivity || discriminate)).
    destruct (_ && _); reflexivity.
  - intros response tle_data -> H2xx ->.
    unfold is_2xx in H2xx. apply andb_prop in H2xx as [_ Hhi].
    apply Z.ltb_lt in Hhi.
    destruct (400 <=? status_code response)%Z eqn:Hlo; [|reflexivity].
    apply Z.leb_le in Hlo. lia.
Qed.

End Fetcher.

(** ** The position calculator *)

Section Calculator.

Variable w : World.
Variable tle_data : pyval.

(** Subscripting raises nothing but [KeyError] and [TypeError]. *)
Lemma py_getitem_raises obj key e :
  py_getitem obj key = Raise e -> e = KeyError \/ e = TypeError.
Proof.
  destruct obj; cbn; try (intros [= <-]; right; reflexivity).
  destruct (dict_lookup key items); [discriminate|].
  intros [= <-]. left; reflexivity.
Qed.

(** What [calculate_satellite_position] returns, by what the element set
    holds and what the propagator does. *)
Lemma calculate_satellite_position_outcome :
  outcome (calculate_satellite_position w tle_data) =
  match py_getitem tle_data (lit "line1") with
  | Raise _ => Ok None
  | Ok line1 =>
      match py_getitem tle_data (lit "line2") with
      | Raise _ => Ok None
      | Ok line2 =>
          match py_getitem tle_data (lit "name") with
          | Raise _ => Ok None
          | Ok name =>
              match skyfield_subpoint w line1 line2 name with
              | Ok (latitude, longitude, _) => Ok (Some (latitude, longitude))
              | Raise e => if isinstance e Exception then Ok None else Raise e
              end
          end
      end
  end.
Proof.
  unfold calculate_satellite_position, try_except, lift, emit.
  destruct (py_getitem tle_data (lit "line1")) as [line1|e1] eqn:E1.
  2: { destruct (py_getitem_raises _ _ _ E1) as [-> | ->]; reflexivity. }
  destruct (py_getitem tle_data (lit "line2")) as [line2|e2] eqn:E2.
  2: { destruct (py_getitem_raises _ _ _ E2) as [-> | ->]; reflexivity. }
  destruct (py_getitem tle_data (lit "name")) as [name|e3] eqn:E3.
  2: { destruct (py_getitem_raises _ _ _ E3) as [-> | ->]; reflexivity. }
  cbn. destruct (skyfield_subpoint w line1 line2 name) as [[[latitude longitude] elevation]|e].
  - reflexivity.
  - cbn. destruct (isinstance e Exception); reflexivity.
Qed.

Lemma calculate_satellite_position_saved :
  saved (events (calculate_satellite_position w tle_data)) = [].
Proof.
  unfold calculate_satellite_position, try_except, lift, emit.
  destruct (py_getitem tle_data (lit "line1")) as [line1|e1] eqn:E1.
  2: { destruct (py_getitem_raises _ _ _ E1) as [-> | ->]; reflexivity. }
  destruct (py_getitem tle_data (lit "line2")) as [line2|e2] eqn:E2.
  2: { destruct (py_getitem_raises _ _ _ E2) as [-> | ->]; reflexivity. }
  destruct (py_getitem tle_data (lit "name")) as [name|e3] eqn:E3.
  2: { destruct (py_getitem_raises _ _ _ E3) as [-> | ->]; reflexivity. }
  cbn. destruct (skyfield_subpoint w line1 line2 name) as [[[latitude longitude] elevation]|e].
  - reflexivity.
  - cbn. destruct (isinstance e Exception); reflexivity.
Qed.

(** C4: when the errors of the propagator are exceptions in the sense of
    [except Exception], [calculate_satellite_position] raises nothing for
    any input; it returns [None] when one of the three entries cannot be
    read from the element set (missing key, or a value that has no
    entries) and when the propagator raises. *)
Theorem calculation_failures_are_absent :
  (forall line1 line2 name e,
     skyfield_subpoint w line1 line2 name = Raise e -> isinstance e Exception = true) ->
  (exists position, outcome (calculate_satellite_position w tle_data) = Ok position) /\
  (forall key e,
     In key [lit "line1"; lit "line2"; lit "name"] ->
     py_getitem tle_data key = Raise e ->
     outcome (calculate_satellite_position w tle_data) = Ok None) /\
  (forall line1 line2 name e,
     py_getitem tle_data (lit "line1") = Ok line1 ->
     py_getitem tle_data (lit "line2") = Ok line2 ->
     py_getitem tle_data (lit "name") = Ok name ->
     skyfield_subpoint w line1 line2 name = Raise e ->
     outcome (calculate_satellite_position w tle_data) = Ok None).
Proof.
  intros Hlib. rewrite calculate_satellite_position_outcome. repeat split.
  - destruct (py_getitem tle_data (lit "line1")) as [line1|]; [|eauto].
    destruct (py_getitem tle_data (lit "line2")) as [line2|]; [|eauto].
    destruct (py_getitem tle_data (lit "name")) as [name|]; [|eauto].
    destruct (skyfield_subpoint w line1 line2 name) as [[[latitude longitude] ?]|e] eqn:E;
      [eauto|].
    rewrite (Hlib _ _ _ _ E). eauto.
  - intros key e Hkey Hraise.
    destruct (py_getitem tle_data (lit "line1")) as [line1|] eqn:E1.
    2: reflexivity.
    destruct (py_getitem tle_data (lit "line2")) as [line2|] eqn:E2.
    2: reflexivity.
    destruct (py_getitem tle_data (lit "name")) as [name|] eqn:E3.
    2: reflexivity.
    exfalso. cbn in Hkey. destruct Hkey as [<-|[<-|[<-|[]]]]; congruence.
  - intros line1 line2 name e -> -> -> E. rewrite E, (Hlib _ _ _ _ E). reflexivity.
Qed.

End Calculator.

(** ** The map renderer *)

Section Renderer.

Variable py_repr : pyval -> pystr.
Variable w : World.

Lemma create_map_outcome latitude longitude satellite_name :
  outcome (create_map py_repr w latitude longitude satellite_name) =
  match folium_fault w (sat_map_of py_repr latitude longitude satellite_name) with
  | None => Ok (Some (sat_map_of py_repr latitude longitude satellite_name))
  | Some e => if isinstance e Exception then Ok None else Raise e
  end.
Proof.
  unfold create_map, try_except, lift.
  destruct (folium_fault w _) as [e|]; [|reflexivity].
  cbn. destruct (isinstance e Exception); reflexivity.
Qed.

Lemma create_map_saved latitude longitude satellite_name :
  saved (events (create_map py_repr w latitude longitude satellite_name)) = [].
Proof.
  unfold create_map, try_except, lift.
  destruct (folium_fault w _) as [e|]; [|reflexivity].
  cbn. destruct (isinstance e Exception); reflexivity.
Qed.

(** C6: for latitude 51.50, longitude -0.12 and the name "TestSat", when
    folium raises nothing, the renderer returns a document with a pin
    whose popup is "TestSat<br>Lat: 51.50°, Lon: -0.12°" (so it contains
    "Lat: 51.50°, Lon: -0.12°", the coordinates with two decimals) and a
    circle marker at the same coordinate. *)
Theorem create_map_TestSat :
  folium_fault w (sat_map_of py_repr latitude_51_50 longitude_minus_0_12
                             (PStr (lit "TestSat"))) = None ->
  exists sat_map popup icon,
    outcome (create_map py_repr w latitude_51_50 longitude_minus_0_12
                        (PStr (lit "TestSat"))) = Ok (Some sat_map) /\
    children sat_map =
      [ Marker (latitude_51_50, longitude_minus_0_12) popup icon;
        CircleMarker (latitude_51_50, longitude_minus_0_12) 10 (lit "TestSat")
                     (lit "crimson") true (lit "crimson") ] /\
    popup = lit "TestSat<br>Lat: 51.50" ++ [degree_sign] ++
            lit ", Lon: -0.12" ++ [degree_sign] /\
    contains (lit "Lat: 51.50" ++ [degree_sign] ++ lit ", Lon: -0.12" ++ [degree_sign])
             popup.
Proof.
  intros Hfolium. rewrite create_map_outcome, Hfolium.
  eexists _, _, _. split; [reflexivity|]. split; [reflexivity|].
  split; [vm_compute; reflexivity|].
  exists (lit "TestSat<br>"), []. vm_compute. reflexivity.
Qed.

End Renderer.

(** ** The control loop *)

Section Loop.

Variable ucd_lower : pystr -> nat -> pystr.
Variable int_max_str_digits : nat.
Variable py_repr : pyval -> pystr.
Variable json_dumps : pyval -> pystr.

Local Abbreviation lower := (lower ucd_lower).
Local Abbreviation py_int := (py_int int_max_str_digits).
Local Abbreviation accepted := (accepted ucd_lower int_max_str_digits).
Local Abbreviation pipeline := (pipeline py_repr json_dumps).
Local Abbreviation main_body := (main_body ucd_lower int_max_str_digits py_repr json_dumps).
Local Abbreviation main := (main ucd_lower int_max_str_digits py_repr json_dumps).

Lemma main_body_exit w line :
  lower (strip line) = lit "exit" ->
  main_body w line =
  ([Prompt prompt_text; Print (lit "Exiting the program. Goodbye!")], Ok Terminated).
Proof.
  intros H. unfold main_body.
  rewrite bool_decide_eq_true_2 by exact H. reflexivity.
Qed.

Lemma main_body_invalid w line :
  lower (strip line) <> lit "exit" ->
  isdigit (strip line) = false ->
  main_body w line =
  ([Prompt prompt_text;
    Print (lit "Invalid input. Please enter a numeric Satellite ID.")], Ok Prompting).
Proof.
  intros H1 H2. unfold main_body.
  rewrite bool_decide_eq_false_2 by exact H1. rewrite H2. reflexivity.
Qed.

Lemma main_body_digits w line :
  lower (strip line) <> lit "exit" ->
  isdigit (strip line) = true ->
  main_body w line =
  (emit (Prompt prompt_text);; satellite_id ← lift (py_int (strip line));
   pipeline w satellite_id).
Proof.
  intros H1 H2. unfold main_body.
  rewrite bool_decide_eq_false_2 by exact H1. rewrite H2. reflexivity.
Qed.

Lemma main_body_accepted w line satellite_id :
  accepted line satellite_id ->
  main_body w line = (emit (Prompt prompt_text);; pipeline w satellite_id).
Proof.
  intros (H1 & H2 & H3). rewrite main_body_digits by assumption.
  rewrite H3. cbn. destruct (pipeline _ _); reflexivity.
Qed.


(** C2: the line "²" (U+00B2, superscript two) is not "exit" and is not
    composed of decimal digits, yet the loop does not answer it with the
    validation message and the state [Prompting]: [isdigit] holds of
    it, the loop goes on to [int], and the turn ends with the
    [ValueError] that [int] raises. *)
Theorem superscript_two_is_not_rejected (w : World) :
  ucd_lower [0xB2] 0%nat = [0xB2] ->
  lower (strip [0xB2]) <> lit "exit" /\
  isdecimal (strip [0xB2]) = false /\
  main_body w [0xB2] = ([Prompt prompt_text], Raise ValueError).
Proof.
  intros Hl.
  assert (Hne : lower (strip [0xB2]) <> lit "exit").
  { change (ucd_lower [0xB2] 0%nat ++ [] <> lit "exit").
    rewrite Hl. discriminate. }
  split; [exact Hne|]. split; [reflexivity|].
  rewrite main_body_digits; [reflexivity|exact Hne|reflexivity].
Qed.

(** C3: the line "²" passes the validation of the loop, and parsing it
    raises [ValueError]; the exception leaves the loop, and no request
    is sent. *)
Theorem superscript_two_fails_to_parse (w : World) :
  ucd_lower [0xB2] 0%nat = [0xB2] ->
  isdigit (strip [0xB2]) = true /\
  py_int (strip [0xB2]) = Raise ValueError /\
  outcome (main_body w [0xB2]) = Raise ValueError /\
  http_requests (events (main_body w [0xB2])) = [].
Proof.
  intros Hl.
  assert (Hne : lower (strip [0xB2]) <> lit "exit").
  { change (ucd_lower [0xB2] 0%nat ++ [] <> lit "exit").
    rewrite Hl. discriminate. }
  split; [reflexivity|]. split; [reflexivity|].
  rewrite main_body_digits; [split; reflexivity|exact Hne|reflexivity].
Qed.

(** *** The three stages *)

Lemma pipeline_fetch_falsy w satellite_id tle_data :
  outcome (fetch_tle w satellite_id) = Ok tle_data ->
  truthy tle_data = false ->
  pipeline w satellite_id =
  (events (fetch_tle w satellite_id) ++
   [Print (lit "Failed to retrieve TLE data." ++ [10])], Ok Prompting).
Proof.
  intros Hf Ht. unfold pipeline.
  rewrite (M_eta (fetch_tle w satellite_id)), Hf. cbn.
  rewrite Ht. reflexivity.
Qed.

Lemma pipeline_calculation_absent w satellite_id tle_data :
  outcome (fetch_tle w satellite_id) = Ok tle_data ->
  truthy tle_data = true ->
  outcome (calculate_satellite_position w tle_data) = Ok None ->
  pipeline w satellite_id =
  (events (fetch_tle w satellite_id) ++
   events (calculate_satellite_position w tle_data) ++
   [Print (lit "Failed to calculate satellite position.")], Ok Prompting).
Proof.
  intros Hf Ht Hc. unfold pipeline.
  rewrite (M_eta (fetch_tle w satellite_id)), Hf. cbn.
  rewrite Ht, (M_eta (calculate_satellite_position w tle_data)), Hc. cbn.
  rewrite <- app_assoc. reflexivity.
Qed.

Lemma pipeline_rendering_absent w satellite_id tle_data latitude longitude satellite_name :
  outcome (fetch_tle w satellite_id) = Ok tle_data ->
  truthy tle_data = true ->
  outcome (calculate_satellite_position w tle_data) = Ok (Some (latitude, longitude)) ->
  py_get tle_data (lit "name") (PStr (lit "Unknown Satellite")) = Ok satellite_name ->
  outcome (create_map py_repr w latitude longitude satellite_name) = Ok None ->
  pipeline w satellite_id =
  (events (fetch_tle w satellite_id) ++
   events (calculate_satellite_position w tle_data) ++
   events (create_map py_repr w latitude longitude satellite_name) ++
   [Print (lit "Failed to create the map.")], Ok Prompting).
Proof.
  intros Hf Ht Hc Hn Hm. unfold pipeline.
  rewrite (M_eta (fetch_tle w satellite_id)), Hf. cbn.
  rewrite Ht, (M_eta (calculate_satellite_position w tle_data)), Hc.
  cbn -[py_get]. rewrite Hn. cbn.
  rewrite (M_eta (create_map py_repr w latitude longitude satellite_name)), Hm. cbn.
  rewrite <- !app_assoc. reflexivity.
Qed.

Lemma printed_snoc (t : trace) (text : pystr) :
  last (printed (t ++ [Print text])) = Some text.
Proof. unfold printed. rewrite omap_app. cbn. apply last_snoc. Qed.

(** A stage that returns nothing leaves the turn in [Prompting], its
    message being the last thing printed. *)
Lemma pipeline_stage_failure w satellite_id message :
  stage_failure py_repr w satellite_id message ->
  outcome (pipeline w satellite_id) = Ok Prompting /\
  last (printed (events (pipeline w satellite_id))) = Some message.
Proof.
  intros [tle_data Hf Ht | tle_data Hf Ht Hc
         | tle_data latitude longitude satellite_name Hf Ht Hc Hn Hm].
  - rewrite (pipeline_fetch_falsy _ _ _ Hf Ht). split; [reflexivity|].
    apply printed_snoc.
  - rewrite (pipeline_calculation_absent _ _ _ Hf Ht Hc). split; [reflexivity|].
    cbn [events fst]. rewrite app_assoc. apply printed_snoc.
  - rewrite (pipeline_rendering_absent _ _ _ _ _ _ Hf Ht Hc Hn Hm).
    split; [reflexivity|].
    cbn [events fst]. rewrite !app_assoc. apply printed_snoc.
Qed.

(** The stages never end the loop: they continue it or raise. *)
Lemma pipeline_not_terminated w satellite_id :
  outcome (pipeline w satellite_id) <> Ok Terminated.
Proof.
  unfold pipeline. rewrite outcome_bind.
  destruct (outcome (fetch_tle w satellite_id)) as [tle_data|e]; [|discriminate].
  rewrite outcome_bind.
  match goal with |- context [outcome ?m] => destruct (outcome m) end; discriminate.
Qed.

Lemma main_body_terminated w line :
  outcome (main_body w line) = Ok Terminated <-> lower (strip line) = lit "exit".
Proof.
  split.
  - intros H. destruct (decide (lower (strip line) = lit "exit")) as [E|E]; [exact E|].
    exfalso. destruct (isdigit (strip line)) eqn:D.
    + rewrite main_body_digits in H by assumption.
      rewrite !outcome_bind in H. cbn in H.
      destruct (py_int (strip line)) as [satellite_id|e]; [|discriminate].
      cbn in H. exact (pipeline_not_terminated _ _ H).
    + rewrite main_body_invalid in H by assumption. discriminate.
  - intros E. rewrite main_body_exit by exact E. reflexivity.
Qed.

Lemma main_cons w line (rest : list (World * pystr)) :
  main ((w, line) :: rest) =
  match outcome (main_body w line) with
  | Ok Prompting =>
      (events (main_body w line) ++ events (main rest), outcome (main rest))
  | Ok Terminated => (events (main_body w line), Ok Terminated)
  | Raise e => (events (main_body w line), Raise e)
  end.
Proof.
  cbn [main]. rewrite bind_unfold.
  destruct (outcome (main_body w line)) as [[|]|e]; try reflexivity.
  cbn. rewrite app_nil_r. reflexivity.
Qed.

Lemma main_app (before after : list (World * pystr)) :
  outcome (main before) = Ok Prompting ->
  main (before ++ after) =
  (events (main before) ++ events (main after), outcome (main after)).
Proof.
  induction before as [|[w line] before IH]; intros H.
  - apply M_eta.
  - rewrite <- app_comm_cons, !main_cons in *.
    destruct (outcome (main_body w line)) as [[|]|e]; try discriminate.
    rewrite (IH H). cbn [events outcome fst snd].
    rewrite app_assoc. reflexivity.
Qed.

Lemma main_terminated (turns : list (World * pystr)) :
  outcome (main turns) = Ok Terminated ->
  exists before w line after,
    turns = before ++ (w, line) :: after /\
    outcome (main before) = Ok Prompting /\
    lower (strip line) = lit "exit".
Proof.
  induction turns as [|[w line] turns IH]; intros H; [discriminate|].
  rewrite main_cons in H.
  destruct (outcome (main_body w line)) as [[|]|e] eqn:E; try discriminate.
  - destruct (IH H) as (before & w' & line' & after & -> & Hb & Hx).
    exists ((w, line) :: before), w', line', after. split; [reflexivity|].
    split; [|exact Hx]. rewrite main_cons, E. exact Hb.
  - exists [], w, line, turns. split; [reflexivity|]. split; [reflexivity|].
    apply (main_body_terminated w). exact E.
Qed.

Lemma main_raised (turns : list (World * pystr)) (e : exn) :
  outcome (main turns) = Raise e ->
  exists before w line after,
    turns = before ++ (w, line) :: after /\
    outcome (main before) = Ok Prompting /\
    outcome (main_body w line) = Raise e.
Proof.
  induction turns as [|[w line] turns IH]; intros H; [discriminate|].
  rewrite main_cons in H.
  destruct (outcome (main_body w line)) as [[|]|e'] eqn:E; try discriminate.
  - destruct (IH H) as (before & w' & line' & after & -> & Hb & Hx).
    exists ((w, line) :: before), w', line', after. split; [reflexivity|].
    split; [|exact Hx]. rewrite main_cons, E. exact Hb.
  - exists [], w, line, turns. split; [reflexivity|]. split; [reflexivity|].
    cbn in H. congruence.
Qed.

(** C10: when the fetcher returns the empty object, the turn goes as it
    does when the fetcher returns [None]: after the events of the fetch
    the loop prints "Failed to retrieve TLE data." and is in [Prompting];
    the calculator is not called. *)
Theorem empty_object_is_absent (w : World) (line : pystr) (satellite_id : Z)
    (tle_data : pyval) :
  accepted line satellite_id ->
  outcome (fetch_tle w satellite_id) = Ok tle_data ->
  tle_data = PDict [] \/ tle_data = PNone ->
  main_body w line =
  (Prompt prompt_text :: events (fetch_tle w satellite_id) ++
   [Print (lit "Failed to retrieve TLE data." ++ [10])], Ok Prompting).
Proof.
  intros Hline Hfetch Hempty.
  rewrite (main_body_accepted _ _ _ Hline).
  rewrite (pipeline_fetch_falsy _ _ _ Hfetch); [reflexivity|].
  destruct Hempty as [-> | ->]; reflexivity.
Qed.

(** C9, amended: a turn in which the fetch, the calculation or the
    rendering returns nothing prints the message of that stage, leaves
    the loop in [Prompting], and the loop goes on with the lines that
    follow: no stage failure ends the loop.  The loop ends in
    [Terminated] only by reading a line that is "exit"; a run that ends
    otherwise ends with an exception that left one of its turns, and in
    that turn no stage returned nothing. *)
Theorem loop_outlives_stage_failures (turns : list (World * pystr)) :
  (outcome (main turns) = Ok Terminated ->
   exists before w line after,
     turns = before ++ (w, line) :: after /\
     outcome (main before) = Ok Prompting /\
     lower (strip line) = lit "exit") /\
  (forall before w line satellite_id message after,
     turns = before ++ (w, line) :: after ->
     outcome (main before) = Ok Prompting ->
     accepted line satellite_id ->
     stage_failure py_repr w satellite_id message ->
     outcome (main_body w line) = Ok Prompting /\
     last (printed (events (main_body w line))) = Some message /\
     main turns =
       (events (main before) ++ events (main_body w line) ++ events (main after),
        outcome (main after))) /\
  (forall e,
     outcome (main turns) = Raise e ->
     exists before w line after,
       turns = before ++ (w, line) :: after /\
       outcome (main before) = Ok Prompting /\
       outcome (main_body w line) = Raise e /\
       forall satellite_id message,
         accepted line satellite_id -> ~ stage_failure py_repr w satellite_id message).
Proof.
  assert (Hturn : forall w line satellite_id message,
             accepted line satellite_id ->
             stage_failure py_repr w satellite_id message ->
             outcome (main_body w line) = Ok Prompting /\
             last (printed (events (main_body w line))) = Some message).
  { intros w line satellite_id message Hline Hstage.
    destruct (pipeline_stage_failure _ _ _ Hstage) as [Hout Hlast].
    split.
    - rewrite (main_body_accepted _ _ _ Hline), outcome_bind. exact Hout.
    - rewrite (main_body_accepted _ _ _ Hline), events_bind. cbn [outcome emit snd].
      unfold printed in *. rewrite omap_app. cbn [omap events emit fst].
      exact Hlast. }
  split; [apply main_terminated|]. split.
  - intros before w line satellite_id message after -> Hbefore Hline Hstage.
    destruct (Hturn _ _ _ _ Hline Hstage) as [Hbody Hlast].
    split; [exact Hbody|]. split; [exact Hlast|].
    rewrite (main_app _ _ Hbefore), main_cons, Hbody. reflexivity.
  - intros e H.
    destruct (main_raised _ _ H) as (before & w & line & after & -> & Hb & Hx).
    exists before, w, line, after. split; [reflexivity|]. split; [exact Hb|].
    split; [exact Hx|]. intros satellite_id message Hline Hstage.
    destruct (Hturn _ _ _ _ Hline Hstage) as [Hbody _]. congruence.
Qed.

(** *** The output file *)

Lemma saved_bind {A B} (m : M A) (f : A -> M B) :
  saved (events (m ≫= f)) =
  saved (events m) ++
  match outcome m with Ok a => saved (events (f a)) | Raise _ => [] end.
Proof.
  rewrite events_bind. unfold saved. rewrite omap_app.
  destruct (outcome m); reflexivity.
Qed.

Lemma saved_then_ret {A B} (m : M A) (b : B) :
  saved (events (m;; mret b)) = saved (events m).
Proof.
  rewrite saved_bind. destruct (outcome m); cbn; apply app_nil_r.
Qed.

(** A turn of the pipeline writes no file or the one file named after the
    catalogue number. *)
Lemma pipeline_saved w satellite_id :
  saved (events (pipeline w satellite_id)) = [] \/
  saved (events (pipeline w satellite_id)) = [map_filename_of satellite_id].
Proof.
  unfold pipeline. rewrite saved_bind, fetch_tle_saved.
  destruct (outcome (fetch_tle w satellite_id)) as [tle_data|e]; [|left; reflexivity].
  rewrite saved_then_ret.
  destruct (truthy tle_data); [|left; reflexivity].
  rewrite saved_bind, calculate_satellite_position_saved.
  destruct (outcome (calculate_satellite_position w tle_data))
    as [[[latitude longitude]|]|e]; try (left; reflexivity).
  rewrite saved_bind.
  destruct (py_get tle_data _ _) as [satellite_name|e]; [|left; reflexivity].
  cbn [lift events outcome fst snd saved omap app].
  rewrite saved_bind, create_map_saved.
  destruct (outcome (create_map py_repr w latitude longitude satellite_name))
    as [[sat_map|]|e]; try (left; reflexivity).
  unfold save. destruct (save_fault w _); [left; reflexivity|right; reflexivity].
Qed.

Lemma main_body_saved w line satellite_id :
  accepted line satellite_id ->
  saved (events (main_body w line)) = [] \/
  saved (events (main_body w line)) = [map_filename_of satellite_id].
Proof.
  intros Hline. rewrite (main_body_accepted _ _ _ Hline), saved_bind.
  exact (pipeline_saved w satellite_id).
Qed.

(** C8: the name of the output file is the decimal numeral of the
    catalogue number followed by "_location_map.html"; two turns for the
    same number write no file but that one, so that the second turn adds
    no name to the working directory when the first has written its
    file, and the file holds the document of the second turn when that
    turn has written it. *)
Theorem same_identifier_same_file (w1 w2 : World) (line1 line2 : pystr)
    (satellite_id : Z) (fs : gmap pystr FoliumMap) :
  accepted line1 satellite_id ->
  accepted line2 satellite_id ->
  map_filename_of satellite_id = py_str_int satellite_id ++ lit "_location_map.html" /\
  (forall filename,
     In filename (saved (events (main_body w1 line1)) ++
                  saved (events (main_body w2 line2))) ->
     filename = map_filename_of satellite_id) /\
  dom (files_after (events (main_body w2 line2))
         (files_after (events (main_body w1 line1)) fs))
    ⊆ {[ map_filename_of satellite_id ]} ∪ dom fs /\
  (saved (events (main_body w1 line1)) <> [] ->
   dom (files_after (events (main_body w2 line2))
          (files_after (events (main_body w1 line1)) fs)) =
   dom (files_after (events (main_body w1 line1)) fs)) /\
  (saved (events (main_body w2 line2)) <> [] ->
   exists document,
     In (Save (map_filename_of satellite_id) document) (events (main_body w2 line2)) /\
     files_after (events (main_body w2 line2))
       (files_after (events (main_body w1 line1)) fs)
       !! map_filename_of satellite_id = Some document).
Proof.
  intros H1 H2.
  pose proof (main_body_saved w1 _ _ H1) as S1.
  pose proof (main_body_saved w2 _ _ H2) as S2.
  split; [reflexivity|]. split; [|split; [|split]].
  4: { intros Hsaved. destruct S2 as [S2|S2]; [congruence|].
       apply files_after_saved_once. exact S2. }
  all: rewrite ?dom_files_after.
  - intros filename Hin. apply in_app_or in Hin.
    destruct S1 as [S1|S1], S2 as [S2|S2]; rewrite S1, S2 in Hin; cbn in Hin;
      intuition congruence.
  - destruct S1 as [-> | ->], S2 as [-> | ->]; cbn; set_solver.
  - intros Hsaved. destruct S1 as [S1|S1]; [congruence|].
    rewrite S1. destruct S2 as [-> | ->]; cbn; set_solver.
Qed.

(** *** Lines of ASCII digits

    On the digits 0 to 9 the two tests of the loop and [int] agree: such
    a line is accepted, and the number handed to the fetcher is the one
    the digits denote, the interpreter's limit on the number of digits
    permitting. *)

Ltac digit_cases c H :=
  assert (c = 48 \/ c = 49 \/ c = 50 \/ c = 51 \/ c = 52 \/
          c = 53 \/ c = 54 \/ c = 55 \/ c = 56 \/ c = 57) as Hcases by lia;
  clear H; repeat (destruct Hcases as [-> | Hcases]); [.. | subst c].

Lemma ascii_digit_facts c :
  48 <= c <= 57 ->
  isspace_char c = false /\ int_space c = false /\ isdigit_char c = true /\
  decimal_value c = Some (c - 48) /\ (c =? 95) = false /\ (c =? 45) = false /\
  (c =? 43) = false /\ (c <? 128) = true /\ ascii_lower c = c.
Proof. intros H. digit_cases c H; repeat split. Qed.

Lemma lstrip_by_kept p (s : pystr) :
  Forall (fun c => p c = false) s -> lstrip_by p s = s.
Proof. destruct 1 as [|c s Hc _]; cbn; [|rewrite Hc]; reflexivity. Qed.

Lemma rstrip_by_kept p (s : pystr) :
  Forall (fun c => p c = false) s -> rstrip_by p s = s.
Proof.
  intros H. unfold rstrip_by. rewrite lstrip_by_kept by (apply Forall_rev; exact H).
  apply rev_involutive.
Qed.

Lemma concat_imap_singleton (f : nat -> codepoint -> pystr) (s : pystr) :
  (forall i c, In c s -> f i c = [c]) -> concat (imap f s) = s.
Proof.
  revert f. induction s as [|c s IH]; intros f H; [reflexivity|].
  cbn. rewrite (H 0%nat c) by (left; reflexivity). cbn. f_equal.
  apply IH. intros i c' Hin. apply H. right; exact Hin.
Qed.

Lemma ascii_digits_lower (s : pystr) :
  Forall (fun c => 48 <= c <= 57) s -> lower s = s.
Proof.
  intros H. apply concat_imap_singleton. intros i c Hin.
  rewrite Forall_forall in H. specialize (H c).
  destruct (ascii_digit_facts c) as (_ & _ & _ & _ & _ & _ & _ & -> & ->);
    [apply H, list_elem_of_In; exact Hin | reflexivity].
Qed.

Lemma int_digits_ascii (s : pystr) (after_digit : bool) (acc : Z) :
  Forall (fun c => 48 <= c <= 57) s ->
  int_digits after_digit acc s =
  match s with
  | [] => if after_digit then Some acc else None
  | _ => Some (fold_left (fun acc c => (10 * acc + Z.of_N (c - 48))%Z) s acc)
  end.
Proof.
  intros H. revert after_digit acc.
  induction H as [|c s Hc Hs IH]; intros after_digit acc; [reflexivity|].
  destruct (ascii_digit_facts c Hc) as (_ & _ & _ & Hv & H95 & _).
  cbn [int_digits]. rewrite H95, Hv, IH.
  destruct s; reflexivity.
Qed.

Lemma digit_count_ascii (s : pystr) :
  Forall (fun c => 48 <= c <= 57) s -> digit_count s = length s.
Proof.
  intros H. unfold digit_count, pystr, codepoint. f_equal.
  induction H as [|c s Hc Hs IH]; [reflexivity|].
  rewrite filter_cons_True by lia. f_equal. exact IH.
Qed.

Lemma py_int_ascii_digits (s : pystr) :
  ascii_digits s ->
  int_max_str_digits = 0%nat \/ (length s <= int_max_str_digits)%nat ->
  py_int s = Ok (decimal_number s).
Proof.
  intros [Hne Hs] Hlimit.
  assert (Hsp : Forall (fun c => int_space c = false) s).
  { eapply Forall_impl; [exact Hs|]. intros c Hc. cbn beta. apply ascii_digit_facts, Hc. }
  unfold py_int. rewrite (lstrip_by_kept _ _ Hsp).
  destruct s as [|c s]; [congruence|].
  destruct (ascii_digit_facts c) as (_ & _ & _ & _ & _ & -> & -> & _);
    [inversion Hs; assumption|].
  rewrite (rstrip_by_kept _ _ Hsp), (int_digits_ascii _ _ _ Hs), (digit_count_ascii _ Hs).
  fold (decimal_number (c :: s)).
  destruct Hlimit as [-> | Hlen]; [reflexivity|].
  apply Nat.ltb_ge in Hlen. rewrite Hlen, andb_false_r. reflexivity.
Qed.

(** A line of digits 0 to 9, spaces around them or not, passes the tests
    of the loop, and the three stages run for the number it denotes. *)
Lemma ascii_digit_line_accepted w line :
  ascii_digits (strip line) ->
  int_max_str_digits = 0%nat \/ (length (strip line) <= int_max_str_digits)%nat ->
  accepted line (decimal_number (strip line)) /\
  main_body w line =
  (emit (Prompt prompt_text);; pipeline w (decimal_number (strip line))).
Proof.
  intros Hdigits Hlimit.
  assert (Hline : accepted line (decimal_number (strip line))).
  { destruct Hdigits as [Hne Hs]. split; [|split].
    - rewrite (ascii_digits_lower _ Hs). intros E. rewrite E, lit_exit in Hs.
      inversion Hs as [|? ? Hc]. lia.
    - destruct (strip line) as [|c s]; [congruence|].
      unfold isdigit. apply forallb_forall. intros c' Hin.
      rewrite Forall_forall in Hs.
      apply ascii_digit_facts, Hs, list_elem_of_In, Hin.
    - apply py_int_ascii_digits; [split; assumption|exact Hlimit]. }
  split; [exact Hline|]. apply main_body_accepted. exact Hline.
Qed.

End Loop.

(** ** More on the stages *)

Lemma fetch_catches_classes (e : exn) :
  fetch_catches e = isinstance e RequestException || isinstance e json_JSONDecodeError.
Proof. destruct e; reflexivity. Qed.

Ltac fetch_tle_cases w satellite_id :=
  unfold fetch_tle, get, raise_for_status, try_except, fetch_handler, lift, emit;
  fold (tle_request satellite_id);
  destruct (requests_get w (tle_request satellite_id)) as [[code [v|e]]|e];
  cbn -[Z.leb Z.ltb tle_request];
  try destruct ((400 <=? code)%Z && (code <? 600)%Z);
  try destruct e.

Ltac calculate_cases w tle_data :=
  unfold calculate_satellite_position, try_except, lift, emit;
  let E := fresh "E" in
  destruct (py_getitem tle_data (lit "line1")) as [?line1|?e] eqn:E;
  [|destruct (py_getitem_raises _ _ _ E) as [-> | ->]];
  [let E := fresh "E" in
   destruct (py_getitem tle_data (lit "line2")) as [?line2|?e] eqn:E;
   [|destruct (py_getitem_raises _ _ _ E) as [-> | ->]];
   [let E := fresh "E" in
    destruct (py_getitem tle_data (lit "name")) as [?name|?e] eqn:E;
    [|destruct (py_getitem_raises _ _ _ E) as [-> | ->]];
    [cbn;
     match goal with
     | |- context [skyfield_subpoint w ?a ?b ?c] =>
         destruct (skyfield_subpoint w a b c) as [[[?latitude ?longitude] ?elevation]|?e];
         [|cbn; destruct (isinstance _ Exception)]
     end|..]|..]|..].

(** X1: an exception leaves [fetch_tle] exactly when the request, or
    the decoding of a response whose status is no client or server
    error, raised it and it is neither a [RequestException] nor a
    [json.JSONDecodeError]: such an exception is passed on unchanged. *)
Theorem fetch_tle_raises_iff (w : World) (satellite_id : Z) (e : exn) :
  outcome (fetch_tle w satellite_id) = Raise e <->
  (isinstance e RequestException = false /\
   isinstance e json_JSONDecodeError = false) /\
  (requests_get w (tle_request satellite_id) = Raise e \/
   exists response,
     requests_get w (tle_request satellite_id) = Ok response /\
     (400 <=? status_code response)%Z && (status_code response <? 600)%Z = false /\
     response_json response = Raise e).
Proof.
  rewrite fetch_tle_outcome, <- orb_false_iff, <- fetch_catches_classes.
  destruct (requests_get w (tle_request satellite_id)) as [response|e'] eqn:G.
  - destruct ((400 <=? status_code response)%Z && (status_code response <? 600)%Z) eqn:T.
    + split; [discriminate|]. intros [_ [H|(r & H & T' & _)]]; congruence.
    + destruct (response_json response) as [v|e'] eqn:J.
      * split; [discriminate|]. intros [_ [H|(r & H & _ & J')]]; congruence.
      * destruct (fetch_catches e') eqn:C.
        -- split; [discriminate|]. intros [C' [H|(r & H & _ & J')]]; congruence.
        -- split.
           ++ intros [= <-]. split; [exact C|]. right. eauto.
           ++ intros [_ [H|(r & H & _ & J')]]; congruence.
  - destruct (fetch_catches e') eqn:C.
    + split; [discriminate|]. intros [C' [H|(r & H & _)]]; congruence.
    + split.
      * intros [= <-]. split; [exact C|]. left; reflexivity.
      * intros [_ [H|(r & H & _)]]; congruence.
Qed.

Lemma fetch_tle_effects (w : World) (satellite_id : Z) :
  effects (events (fetch_tle w satellite_id)) = [HttpGet (tle_request satellite_id)].
Proof. fetch_tle_cases w satellite_id; reflexivity. Qed.

Lemma calculate_satellite_position_effects (w : World) (tle_data : pyval) :
  effects (events (calculate_satellite_position w tle_data)) = [].
Proof. calculate_cases w tle_data; reflexivity. Qed.

Lemma create_map_effects (py_repr : pyval -> pystr) (w : World)
    (latitude longitude : float) (satellite_name : pyval) :
  effects (events (create_map py_repr w latitude longitude satellite_name)) = [].
Proof.
  unfold create_map, try_except, lift.
  destruct (folium_fault w _) as [e|]; [|reflexivity].
  cbn. destruct (isinstance e Exception); reflexivity.
Qed.

(** X2: apart from its log records, [fetch_tle] does one thing, the
    request; [calculate_satellite_position] and [create_map] do nothing:
    no stage prints, prompts, writes a file or opens the browser. *)
Theorem stages_only_log (py_repr : pyval -> pystr) (w : World) (satellite_id : Z)
    (tle_data : pyval) (latitude longitude : float) (satellite_name : pyval) :
  effects (events (fetch_tle w satellite_id)) = [HttpGet (tle_request satellite_id)] /\
  effects (events (calculate_satellite_position w tle_data)) = [] /\
  effects (events (create_map py_repr w latitude longitude satellite_name)) = [].
Proof.
  split; [apply fetch_tle_effects|].
  split; [apply calculate_satellite_position_effects|apply create_map_effects].
Qed.

(** A position comes from a dictionary with the three keys and from the
    propagator. *)
Lemma calculate_satellite_position_success (w : World) (tle_data : pyval)
    (latitude longitude : float) :
  outcome (calculate_satellite_position w tle_data) = Ok (Some (latitude, longitude)) ->
  exists items line1 line2 name elevation,
    tle_data = PDict items /\
    dict_lookup (lit "line1") items = Some line1 /\
    dict_lookup (lit "line2") items = Some line2 /\
    dict_lookup (lit "name") items = Some name /\
    skyfield_subpoint w line1 line2 name = Ok (latitude, longitude, elevation).
Proof.
  rewrite calculate_satellite_position_outcome.
  destruct tle_data as [| | | | |l|items]; try discriminate.
  unfold py_getitem.
  destruct (dict_lookup (lit "line1") items) as [line1|] eqn:H1; [|discriminate].
  destruct (dict_lookup (lit "line2") items) as [line2|] eqn:H2; [|discriminate].
  destruct (dict_lookup (lit "name") items) as [name|] eqn:H3; [|discriminate].
  destruct (skyfield_subpoint w line1 line2 name) as [[[la lo] el]|e] eqn:S.
  - intros [= -> ->]. exists items, line1, line2, name, el. auto.
  - destruct (isinstance e Exception); discriminate.
Qed.

(** X3: [calculate_satellite_position] returns a position exactly when
    the element set is a dictionary that has the keys "line1", "line2"
    and "name" and the propagator returns a sub-satellite point for their
    values; the position is the latitude and longitude of that point, the
    elevation is dropped. *)
Theorem calculation_succeeds_iff (w : World) (tle_data : pyval) (latitude longitude : float) :
  outcome (calculate_satellite_position w tle_data) = Ok (Some (latitude, longitude)) <->
  exists items line1 line2 name elevation,
    tle_data = PDict items /\
    dict_lookup (lit "line1") items = Some line1 /\
    dict_lookup (lit "line2") items = Some line2 /\
    dict_lookup (lit "name") items = Some name /\
    skyfield_subpoint w line1 line2 name = Ok (latitude, longitude, elevation).
Proof.
  split; [apply calculate_satellite_position_success|].
  intros (items & line1 & line2 & name & elevation & -> & H1 & H2 & H3 & S).
  rewrite calculate_satellite_position_outcome.
  unfold py_getitem. rewrite H1, H2, H3, S. reflexivity.
Qed.

Lemma name_lookup (w : World) (tle_data : pyval) (latitude longitude : float) :
  outcome (calculate_satellite_position w tle_data) = Ok (Some (latitude, longitude)) ->
  exists name,
    py_getitem tle_data (lit "name") = Ok name /\
    forall default, py_get tle_data (lit "name") default = Ok name.
Proof.
  intros H. apply calculate_satellite_position_success in H.
  destruct H as (items & line1 & line2 & name & elevation & -> & _ & _ & H3 & _).
  exists name. cbn. rewrite H3. split; reflexivity.
Qed.

(** X4: when the calculation has returned a position, the element set
    has a name, and [tle_data.get('name', default)] is that name for
    every default: the turn never shows "Unknown Satellite", and the
    call raises nothing. *)
Theorem name_default_is_never_used (w : World) (tle_data : pyval)
    (position : float * float) (default : pyval) :
  outcome (calculate_satellite_position w tle_data) = Ok (Some position) ->
  exists name,
    py_getitem tle_data (lit "name") = Ok name /\
    py_get tle_data (lit "name") default = Ok name.
Proof.
  destruct position as [latitude longitude]. intros H.
  destruct (name_lookup _ _ _ _ H) as (name & Hitem & Hget).
  exists name. split; [exact Hitem|apply Hget].
Qed.

(** X5: when [fetch_tle] returns, either it has logged no ERROR record
    and the value is the decoded body of the response, or it has logged
    exactly one ERROR record and the value is [None].  So [None] without
    an ERROR record is a body that decodes to [None] (JSON null). *)
Theorem fetch_tle_error_records (w : World) (satellite_id : Z) (tle_data : pyval) :
  outcome (fetch_tle w satellite_id) = Ok tle_data ->
  (error_records (events (fetch_tle w satellite_id)) = [] /\
   exists response,
     requests_get w (tle_request satellite_id) = Ok response /\
     response_json response = Ok tle_data) \/
  (tle_data = PNone /\
   exists record, error_records (events (fetch_tle w satellite_id)) = [record]).
Proof.
  fetch_tle_cases w satellite_id; cbn; intros H;
    first [ discriminate H
          | injection H as <-;
            first [ left; split; [reflexivity|]; eexists; split; reflexivity
                  | right; split; [reflexivity|]; eexists; reflexivity ] ].
Qed.

(** X6: [create_map] returns [None] exactly when folium raises an
    exception that [except Exception] catches; the document it returns
    otherwise is centred on the coordinate with zoom 4 and holds two
    elements, both at the centre, the second a circle of radius 10 whose
    popup is the name. *)
Theorem create_map_document (py_repr : pyval -> pystr) (w : World)
    (latitude longitude : float) (satellite_name : pyval) :
  (outcome (create_map py_repr w latitude longitude satellite_name) = Ok None <->
   exists e,
     folium_fault w (sat_map_of py_repr latitude longitude satellite_name) = Some e /\
     isinstance e Exception = true) /\
  (forall sat_map,
     outcome (create_map py_repr w latitude longitude satellite_name) = Ok (Some sat_map) ->
     folium_fault w sat_map = None /\
     map_location sat_map = (latitude, longitude) /\
     zoom_start sat_map = 4%Z /\
     Forall (fun c => element_location c = map_location sat_map) (children sat_map) /\
     exists popup icon,
       children sat_map =
       [ Marker (latitude, longitude) popup icon;
         CircleMarker (latitude, longitude) 10 (py_str py_repr satellite_name)
                      (lit "crimson") true (lit "crimson") ]).
Proof.
  rewrite create_map_outcome.
  destruct (folium_fault w (sat_map_of py_repr latitude longitude satellite_name))
    as [e|] eqn:F.
  - destruct (isinstance e Exception) eqn:I.
    + split; [|discriminate]. split; [eauto|reflexivity].
    + split; [|discriminate]. split; [discriminate|].
      intros (e' & [= <-] & I'). congruence.
  - split.
    + split; [discriminate|]. intros (e & H & _). discriminate.
    + intros sat_map [= <-]. split; [exact F|].
      split; [reflexivity|]. split; [reflexivity|].
      split; [repeat constructor|]. eexists _, _. reflexivity.
Qed.

(** ** Numerals *)

Lemma uint_digits_are_digits (d : Decimal.uint) :
  Forall (fun c => 48 <= c <= 57) (uint_digits d).
Proof. induction d; cbn; constructor; (lia || assumption). Qed.

Lemma uint_digits_nonempty (d : Decimal.uint) : d <> Decimal.Nil -> uint_digits d <> [].
Proof. destruct d; [congruence|discriminate..]. Qed.

Lemma decimal_fold_acc (d : Decimal.uint) (acc : positive) :
  fold_left (fun acc c => (10 * acc + Z.of_N (c - 48))%Z) (uint_digits d) (Zpos acc) =
  Zpos (Pos.of_uint_acc d acc).
Proof.
  revert acc. induction d as [|d IH|d IH|d IH|d IH|d IH|d IH|d IH|d IH|d IH|d IH];
    intros acc; [reflexivity|..]; cbn [uint_digits fold_left Pos.of_uint_acc];
    rewrite <- IH; f_equal; lia.
Qed.

Lemma decimal_number_uint (d : Decimal.uint) :
  decimal_number (uint_digits d) = Z.of_N (Pos.of_uint d).
Proof.
  unfold decimal_number.
  induction d as [|d IH|d IH|d IH|d IH|d IH|d IH|d IH|d IH|d IH|d IH];
    [reflexivity|exact IH|..]; cbn [uint_digits fold_left Pos.of_uint Z.of_N];
    rewrite <- decimal_fold_acc; reflexivity.
Qed.

(** The numeral of a natural number denotes it. *)
Lemma decimal_number_str (n : Z) : (0 <= n)%Z -> decimal_number (py_str_int n) = n.
Proof.
  intros H. destruct n as [|p|p]; [reflexivity| |lia].
  unfold py_str_int. rewrite decimal_number_uint.
  change (Pos.of_uint (N.to_uint (Z.to_N (Z.pos p)))) with (N.of_uint (N.to_uint (Npos p))).
  rewrite DecimalN.Unsigned.of_to. reflexivity.
Qed.

Lemma py_str_int_ascii_digits (n : Z) : (0 <= n)%Z -> ascii_digits (py_str_int n).
Proof.
  intros H. split; [|destruct n; try lia; apply uint_digits_are_digits].
  destruct n as [|p|p]; [discriminate| |lia].
  apply uint_digits_nonempty, DecimalPos.Unsigned.to_uint_nonnil.
Qed.

Lemma py_str_int_inj (m n : Z) : py_str_int m = py_str_int n -> m = n.
Proof.
  assert (Hneg : forall p, decimal_number (uint_digits (Pos.to_uint p)) = Zpos p).
  { intros p. rewrite decimal_number_uint, DecimalPos.Unsigned.of_to. reflexivity. }
  assert (Hmix : forall p k, (0 <= k)%Z -> py_str_int (Zneg p) <> py_str_int k).
  { intros p k Hk E. destruct (py_str_int_ascii_digits k Hk) as [_ Hd].
    rewrite <- E in Hd. cbn in Hd. inversion Hd. lia. }
  intros E. destruct (Z_lt_le_dec m 0) as [Hm|Hm], (Z_lt_le_dec n 0) as [Hn|Hn].
  - destruct m as [|p|p], n as [|q|q]; try lia.
    cbn in E. injection E as E. apply (f_equal decimal_number) in E.
    rewrite !Hneg in E. congruence.
  - destruct m as [|p|p]; try lia. exfalso. exact (Hmix p n Hn E).
  - destruct n as [|q|q]; try lia. exfalso. exact (Hmix q m Hm (eq_sym E)).
  - rewrite <- (decimal_number_str m Hm), <- (decimal_number_str n Hn), E. reflexivity.
Qed.

(** X11: two catalogue numbers that differ have different addresses and
    different output files: the URL and the file name determine the
    number. *)
Theorem url_and_filename_determine_the_number (m n : Z) :
  (tle_url m = tle_url n -> m = n) /\
  (map_filename_of m = map_filename_of n -> m = n).
Proof.
  split; intros E; apply py_str_int_inj.
  - unfold tle_url in E. apply app_inv_head in E. exact E.
  - unfold map_filename_of in E. apply app_inv_tail in E. exact E.
Qed.

(** ** More on the loop *)

Section Turns.

Variable ucd_lower : pystr -> nat -> pystr.
Variable int_max_str_digits : nat.
Variable py_repr : pyval -> pystr.
Variable json_dumps : pyval -> pystr.

Local Abbreviation lower := (lower ucd_lower).
Local Abbreviation py_int := (py_int int_max_str_digits).
Local Abbreviation accepted := (accepted ucd_lower int_max_str_digits).
Local Abbreviation pipeline := (pipeline py_repr json_dumps).
Local Abbreviation main_body := (main_body ucd_lower int_max_str_digits py_repr json_dumps).
Local Abbreviation main := (main ucd_lower int_max_str_digits py_repr json_dumps).

(** The events with which a turn ends when its three stages succeed. *)
Local Abbreviation success_events w satellite_id tle_data satellite_name sat_map :=
  [ Save (map_filename_of satellite_id) sat_map;
    Print ([10] ++ lit "TLE Data Retrieved Successfully for " ++
           py_str py_repr satellite_name ++ lit ":");
    Print (json_dumps tle_data);
    Print ([10] ++ lit "Satellite location map has been saved to " ++
           map_filename_of satellite_id ++ lit ".");
    BrowserOpen (lit "file://" ++ os_path_abspath w (map_filename_of satellite_id)) ].

(** The three stages of a turn, by what each returns. *)
Lemma pipeline_cases w satellite_id :
  pipeline w satellite_id =
  let fetched := fetch_tle w satellite_id in
  match outcome fetched with
  | Raise e => (events fetched, Raise e)
  | Ok tle_data =>
      if truthy tle_data then
        let calculated := calculate_satellite_position w tle_data in
        match outcome calculated with
        | Raise e => (events fetched ++ events calculated, Raise e)
        | Ok None =>
            (events fetched ++ events calculated ++
             [Print (lit "Failed to calculate satellite position.")], Ok Prompting)
        | Ok (Some (latitude, longitude)) =>
            match py_get tle_data (lit "name") (PStr (lit "Unknown Satellite")) with
            | Raise e => (events fetched ++ events calculated, Raise e)
            | Ok satellite_name =>
                let rendered := create_map py_repr w latitude longitude satellite_name in
                match outcome rendered with
                | Raise e =>
                    (events fetched ++ events calculated ++ events rendered, Raise e)
                | Ok None =>
                    (events fetched ++ events calculated ++ events rendered ++
                     [Print (lit "Failed to create the map.")], Ok Prompting)
                | Ok (Some sat_map) =>
                    match save_fault w (map_filename_of satellite_id) with
                    | Some e =>
                        (events fetched ++ events calculated ++ events rendered, Raise e)
                    | None =>
                        (events fetched ++ events calculated ++ events rendered ++
                         success_events w satellite_id tle_data satellite_name sat_map,
                         Ok Prompting)
                    end
                end
            end
        end
      else
        (events fetched ++ [Print (lit "Failed to retrieve TLE data." ++ [10])],
         Ok Prompting)
  end.
Proof.
  cbv zeta. unfold pipeline.
  rewrite (M_eta (fetch_tle w satellite_id)).
  destruct (outcome (fetch_tle w satellite_id)) as [tle_data|e]; [|reflexivity].
  cbn -[py_get]. destruct (truthy tle_data); [|reflexivity].
  rewrite (M_eta (calculate_satellite_position w tle_data)).
  destruct (outcome (calculate_satellite_position w tle_data))
    as [[[latitude longitude]|]|e]; cbn -[py_get];
    [|rewrite ?app_nil_r, <- ?app_assoc; reflexivity..].
  destruct (py_get tle_data (lit "name") (PStr (lit "Unknown Satellite")))
    as [satellite_name|e]; cbn;
    [|rewrite ?app_nil_r, <- ?app_assoc; reflexivity].
  rewrite (M_eta (create_map py_repr w latitude longitude satellite_name)).
  destruct (outcome (create_map py_repr w latitude longitude satellite_name))
    as [[sat_map|]|e]; cbn;
    [|rewrite ?app_nil_r, <- ?app_assoc; reflexivity..].
  unfold save. destruct (save_fault w (map_filename_of satellite_id)); cbn;
    rewrite ?app_nil_r, <- ?app_assoc; reflexivity.
Qed.

Lemma main_body_accepted_cases w line satellite_id :
  accepted line satellite_id ->
  main_body w line =
  (Prompt prompt_text :: events (pipeline w satellite_id), outcome (pipeline w satellite_id)).
Proof.
  intros Hline. rewrite (main_body_accepted _ _ _ _ _ _ _ Hline), bind_unfold.
  cbn. destruct (outcome (pipeline w satellite_id)); reflexivity.
Qed.

Lemma effects_app (t1 t2 : trace) : effects (t1 ++ t2) = effects t1 ++ effects t2.
Proof. apply omap_app. Qed.

Lemma files_after_app (t1 t2 : trace) (fs : gmap pystr FoliumMap) :
  files_after (t1 ++ t2) fs = files_after t2 (files_after t1 fs).
Proof.
  revert fs. induction t1 as [|ev t1 IH]; intros fs; [reflexivity|].
  destruct ev; cbn; apply IH.
Qed.

Lemma effects_cons (ev : event) (t : trace) : effects (ev :: t) = effects [ev] ++ effects t.
Proof. apply (effects_app [ev]). Qed.

Ltac stage_effects :=
  cbn [events outcome fst snd];
  rewrite ?effects_app, ?fetch_tle_effects, ?calculate_satellite_position_effects,
    ?create_map_effects.

(** X7: in a turn whose three stages succeed and whose file can be
    written, the first things done are the prompt, the one request and
    the writing of the document that [create_map] returned, under the
    name of the catalogue number: nothing is printed and the browser is
    not opened before the file is written, no other request or write
    follows, and the file holds that document. *)
Theorem successful_turn (w : World) (line : pystr) (satellite_id : Z)
    (tle_data satellite_name : pyval) (latitude longitude : float)
    (sat_map : FoliumMap) (fs : gmap pystr FoliumMap) :
  accepted line satellite_id ->
  outcome (fetch_tle w satellite_id) = Ok tle_data ->
  truthy tle_data = true ->
  outcome (calculate_satellite_position w tle_data) = Ok (Some (latitude, longitude)) ->
  py_getitem tle_data (lit "name") = Ok satellite_name ->
  outcome (create_map py_repr w latitude longitude satellite_name) = Ok (Some sat_map) ->
  save_fault w (map_filename_of satellite_id) = None ->
  exists rest,
    effects (events (main_body w line)) =
      Prompt prompt_text :: HttpGet (tle_request satellite_id) ::
      Save (map_filename_of satellite_id) sat_map :: rest /\
    http_requests rest = [] /\
    saved rest = [] /\
    files_after (events (main_body w line)) fs !! map_filename_of satellite_id =
      Some sat_map.
Proof.
  intros Hline Hf Ht Hc Hn Hm Hs.
  assert (Hget : py_get tle_data (lit "name") (PStr (lit "Unknown Satellite")) =
                 Ok satellite_name).
  { destruct (name_lookup _ _ _ _ Hc) as (name & Hn' & Hg).
    rewrite Hg. congruence. }
  rewrite (main_body_accepted_cases _ _ _ Hline), pipeline_cases. cbv zeta.
  rewrite Hf, Ht, Hc, Hget, Hm, Hs.
  eexists. split; [|split; [|split]].
  - cbn [events fst]. rewrite effects_cons. stage_effects. cbn. reflexivity.
  - reflexivity.
  - reflexivity.
  - cbn [events fst files_after]. rewrite !files_after_app.
    rewrite (files_after_unsaved (events (fetch_tle w satellite_id)))
      by apply fetch_tle_saved.
    rewrite (files_after_unsaved (events (calculate_satellite_position w tle_data)))
      by apply calculate_satellite_position_saved.
    rewrite (files_after_unsaved (events (create_map py_repr w latitude longitude
                                            satellite_name)))
      by apply create_map_saved.
    cbn. apply lookup_insert_eq.
Qed.

(** X8: when the three stages succeed and writing the file raises, the
    exception leaves the turn: nothing is printed, the browser is not
    opened, and [main] ends with that exception without reading the
    lines that follow. *)
Theorem save_failure_ends_the_loop (w : World) (line : pystr) (satellite_id : Z)
    (tle_data satellite_name : pyval) (latitude longitude : float)
    (sat_map : FoliumMap) (e : exn) (rest : list (World * pystr)) :
  accepted line satellite_id ->
  outcome (fetch_tle w satellite_id) = Ok tle_data ->
  truthy tle_data = true ->
  outcome (calculate_satellite_position w tle_data) = Ok (Some (latitude, longitude)) ->
  py_getitem tle_data (lit "name") = Ok satellite_name ->
  outcome (create_map py_repr w latitude longitude satellite_name) = Ok (Some sat_map) ->
  save_fault w (map_filename_of satellite_id) = Some e ->
  outcome (main_body w line) = Raise e /\
  effects (events (main_body w line)) =
    [Prompt prompt_text; HttpGet (tle_request satellite_id)] /\
  main ((w, line) :: rest) = (events (main_body w line), Raise e).
Proof.
  intros Hline Hf Ht Hc Hn Hm Hs.
  assert (Hget : py_get tle_data (lit "name") (PStr (lit "Unknown Satellite")) =
                 Ok satellite_name).
  { destruct (name_lookup _ _ _ _ Hc) as (name & Hn' & Hg).
    rewrite Hg. congruence. }
  assert (Hbody : outcome (main_body w line) = Raise e).
  { rewrite (main_body_accepted_cases _ _ _ Hline), pipeline_cases. cbv zeta.
    rewrite Hf, Ht, Hc, Hget, Hm, Hs. reflexivity. }
  split; [exact Hbody|]. split.
  - rewrite (main_body_accepted_cases _ _ _ Hline), pipeline_cases. cbv zeta.
    rewrite Hf, Ht, Hc, Hget, Hm, Hs.
    cbn [events fst]. rewrite effects_cons. stage_effects. reflexivity.
  - rewrite main_cons, Hbody. reflexivity.
Qed.

Lemma http_requests_effects (t : trace) : http_requests (effects t) = http_requests t.
Proof.
  unfold http_requests, effects.
  induction t as [|ev t IH]; [reflexivity|].
  destruct ev; cbn; rewrite ?IH; reflexivity.
Qed.

Lemma prompts_effects (t : trace) : prompts (effects t) = prompts t.
Proof.
  unfold prompts, effects.
  induction t as [|ev t IH]; [reflexivity|].
  destruct ev; cbn; rewrite ?IH; reflexivity.
Qed.

Ltac pipeline_rest :=
  stage_effects; eexists; split; [cbn; reflexivity | split; reflexivity].

(** What the stages of a turn do, log records apart: the request, then
    nothing that is a request or a prompt. *)
Lemma pipeline_effects w satellite_id :
  exists rest,
    effects (events (pipeline w satellite_id)) = HttpGet (tle_request satellite_id) :: rest /\
    http_requests rest = [] /\ prompts rest = [].
Proof.
  rewrite pipeline_cases. cbv zeta.
  destruct (outcome (fetch_tle w satellite_id)) as [tle_data|e];
    [|pipeline_rest].
  destruct (truthy tle_data); [|pipeline_rest].
  destruct (outcome (calculate_satellite_position w tle_data))
    as [[[latitude longitude]|]|e]; try (pipeline_rest).
  destruct (py_get tle_data _ _) as [satellite_name|e];
    [|pipeline_rest].
  destruct (outcome (create_map py_repr w latitude longitude satellite_name))
    as [[sat_map|]|e]; try (pipeline_rest).
  destruct (save_fault w _); pipeline_rest.
Qed.

Lemma main_body_http_requests w line :
  http_requests (events (main_body w line)) = [] \/
  exists satellite_id,
    accepted line satellite_id /\
    http_requests (events (main_body w line)) = [tle_request satellite_id].
Proof.
  destruct (decide (lower (strip line) = lit "exit")) as [E|E].
  { left. rewrite (main_body_exit _ _ _ _ _ _ E). reflexivity. }
  destruct (isdigit (strip line)) eqn:D.
  2: { left. rewrite (main_body_invalid _ _ _ _ _ _ E D). reflexivity. }
  destruct (py_int (strip line)) as [satellite_id|e] eqn:P.
  - right. exists satellite_id.
    assert (Hline : accepted line satellite_id) by (repeat split; assumption).
    split; [exact Hline|].
    rewrite (main_body_accepted_cases _ _ _ Hline).
    destruct (pipeline_effects w satellite_id) as (rest & Heff & Hreq & _).
    cbn [events fst]. change (http_requests (Prompt prompt_text :: ?t)) with (http_requests t).
    rewrite <- http_requests_effects, Heff. cbn. fold (http_requests rest).
    rewrite Hreq. reflexivity.
  - left. rewrite (main_body_digits _ _ _ _ _ _ E D), P. reflexivity.
Qed.

Lemma main_body_prompts w line :
  prompts (events (main_body w line)) = [prompt_text].
Proof.
  destruct (decide (lower (strip line) = lit "exit")) as [E|E].
  { rewrite (main_body_exit _ _ _ _ _ _ E). reflexivity. }
  destruct (isdigit (strip line)) eqn:D.
  2: { rewrite (main_body_invalid _ _ _ _ _ _ E D). reflexivity. }
  destruct (py_int (strip line)) as [satellite_id|e] eqn:P.
  - rewrite (main_body_accepted_cases w line satellite_id) by (repeat split; assumption).
    destruct (pipeline_effects w satellite_id) as (rest & Heff & _ & Hprompts).
    cbn [events fst]. rewrite <- prompts_effects, effects_cons, Heff. cbn.
    fold (prompts rest). rewrite Hprompts. reflexivity.
  - rewrite (main_body_digits _ _ _ _ _ _ E D), P. reflexivity.
Qed.

(** X10: a line costs at most one request, there is no retry: a turn
    shows the prompt once and sends no request, or the one request for
    the number on an accepted line; a run sends no more requests than it
    has read lines. *)
Theorem at_most_one_request_per_line (turns : list (World * pystr)) :
  (forall w line,
     prompts (events (main_body w line)) = [prompt_text] /\
     (http_requests (events (main_body w line)) = [] \/
      exists satellite_id,
        accepted line satellite_id /\
        http_requests (events (main_body w line)) = [tle_request satellite_id])) /\
  (length (http_requests (events (main turns))) <= length turns)%nat.
Proof.
  split; [intros w line; split; [apply main_body_prompts|apply main_body_http_requests]|].
  induction turns as [|[w line] turns IH]; [cbn; lia|].
  rewrite main_cons.
  assert (Hreq : (length (http_requests (events (main_body w line))) <= 1)%nat).
  { destruct (main_body_http_requests w line) as [-> | (n & _ & ->)]; cbn; lia. }
  destruct (outcome (main_body w line)) as [[|]|e]; cbn [events fst length];
    unfold http_requests in *; rewrite ?omap_app, ?length_app; lia.
Qed.

(** *** Answers that are not element sets *)

Lemma unreadable_element_set (w : World) (tle_data : pyval) (key : pystr) (e : exn) :
  In key [lit "line1"; lit "line2"; lit "name"] ->
  py_getitem tle_data key = Raise e ->
  outcome (calculate_satellite_position w tle_data) = Ok None.
Proof.
  intros Hkey Hraise. rewrite calculate_satellite_position_outcome.
  destruct (py_getitem tle_data (lit "line1")) as [line1|] eqn:E1; [|reflexivity].
  destruct (py_getitem tle_data (lit "line2")) as [line2|] eqn:E2; [|reflexivity].
  destruct (py_getitem tle_data (lit "name")) as [name|] eqn:E3; [|reflexivity].
  exfalso. cbn in Hkey. destruct Hkey as [<-|[<-|[<-|[]]]]; congruence.
Qed.

(** X16: when the service answers with JSON that is truthy but is not a
    dictionary with the three keys (a list, a string, a number, an
    object without "line1"), the turn does not fail with an exception:
    it prints "Failed to calculate satellite position." and the loop is
    in [Prompting]. *)
Theorem unusable_answer_is_a_calculation_failure (w : World) (line : pystr)
    (satellite_id : Z) (tle_data : pyval) (key : pystr) (e : exn) :
  accepted line satellite_id ->
  outcome (fetch_tle w satellite_id) = Ok tle_data ->
  truthy tle_data = true ->
  In key [lit "line1"; lit "line2"; lit "name"] ->
  py_getitem tle_data key = Raise e ->
  outcome (main_body w line) = Ok Prompting /\
  effects (events (main_body w line)) =
    [ Prompt prompt_text; HttpGet (tle_request satellite_id);
      Print (lit "Failed to calculate satellite position.") ].
Proof.
  intros Hline Hf Ht Hkey Hraise.
  pose proof (unreadable_element_set w _ _ _ Hkey Hraise) as Hc.
  rewrite (main_body_accepted_cases _ _ _ Hline), pipeline_cases. cbv zeta.
  rewrite Hf, Ht, Hc. split; [reflexivity|].
  cbn [events fst]. rewrite effects_cons. stage_effects. reflexivity.
Qed.

Lemma truthy_absent_answer (v : pyval) : truthy v = false <-> absent_answer v.
Proof.
  unfold absent_answer. split.
  - intros Ht. destruct v as [|b|z|f|s0|l|items]; cbn in Ht.
    + auto.
    + subst b. auto.
    + apply negb_false_iff, Z.eqb_eq in Ht. subst z. auto 6.
    + apply negb_false_iff in Ht. do 3 right. left. eauto.
    + destruct s0; [auto 8|discriminate].
    + destruct l; [auto 8|discriminate].
    + destruct items; [auto 8|discriminate].
  - intros [-> | [-> | [-> | [(f & -> & Hf) | [-> | [-> | ->]]]]]]; try reflexivity.
    cbn. rewrite Hf. reflexivity.
Qed.

(** X17: the values that [if tle_data:] takes for absent are exactly
    [None], [False], zero, the empty string, the empty list and the
    empty object: the answer is one of them exactly when the test
    fails, and exactly when what the turn does is the prompt, the
    request and the print of "Failed to retrieve TLE data."; the loop is
    then in [Prompting]. *)
Theorem falsy_answer_is_a_retrieval_failure (w : World) (line : pystr)
    (satellite_id : Z) (tle_data : pyval) :
  accepted line satellite_id ->
  outcome (fetch_tle w satellite_id) = Ok tle_data ->
  (truthy tle_data = false <-> absent_answer tle_data) /\
  (effects (events (main_body w line)) =
     [ Prompt prompt_text; HttpGet (tle_request satellite_id);
       Print (lit "Failed to retrieve TLE data." ++ [10]) ] <->
   absent_answer tle_data) /\
  (absent_answer tle_data -> outcome (main_body w line) = Ok Prompting).
Proof.
  intros Hline Hf. split; [apply truthy_absent_answer|].
  rewrite <- truthy_absent_answer.
  rewrite (main_body_accepted_cases _ _ _ Hline), pipeline_cases. cbv zeta.
  rewrite Hf. destruct (truthy tle_data) eqn:Ht.
  - split; [|discriminate]. split; [|discriminate].
    cbn [events fst]. rewrite effects_cons.
    destruct (outcome (calculate_satellite_position w tle_data))
      as [[[latitude longitude]|]|e].
    + destruct (py_get tle_data _ _) as [satellite_name|e].
      * destruct (outcome (create_map py_repr w latitude longitude satellite_name))
          as [[sat_map|]|e].
        -- destruct (save_fault w _); stage_effects; cbn; discriminate.
        -- stage_effects. cbn. intros [=].
        -- stage_effects. cbn. discriminate.
      * stage_effects. cbn. discriminate.
    + stage_effects. cbn. intros [=].
    + stage_effects. cbn. discriminate.
  - split; [|reflexivity]. split; [reflexivity|]. intros _.
    cbn [events fst]. rewrite effects_cons. stage_effects. reflexivity.
Qed.

(** *** What the loop accepts *)

Lemma lstrip_by_all p (s : pystr) :
  Forall (fun c => p c = true) s -> lstrip_by p s = [].
Proof. induction 1 as [|c s Hc _ IH]; cbn; [|rewrite Hc]; auto. Qed.

Lemma lstrip_by_In p (s : pystr) c : In c (lstrip_by p s) -> In c s.
Proof.
  induction s as [|c' s IH]; cbn; [auto|].
  destruct (p c'); [right; auto|auto].
Qed.

Lemma rstrip_by_In p (s : pystr) c : In c (rstrip_by p s) -> In c s.
Proof.
  unfold rstrip_by. rewrite <- !in_rev. intros H.
  apply in_rev. exact (lstrip_by_In _ _ _ H).
Qed.

Lemma int_digits_nonneg (s : pystr) (after_digit : bool) (acc n : Z) :
  (0 <= acc)%Z -> int_digits after_digit acc s = Some n -> (0 <= n)%Z.
Proof.
  revert after_digit acc. induction s as [|c s IH]; intros after_digit acc Hacc; cbn.
  - destruct after_digit; [intros [= <-]; exact Hacc|discriminate].
  - destruct (c =? 95).
    + destruct after_digit; [apply IH; exact Hacc|discriminate].
    + destruct (decimal_value c) as [d|]; [|discriminate]. apply IH. lia.
Qed.

Lemma isdigit_In (s : pystr) c : isdigit s = true -> In c s -> isdigit_char c = true.
Proof.
  destruct s as [|c' s]; [discriminate|]. unfold isdigit. intros H Hin.
  rewrite forallb_forall in H. exact (H c Hin).
Qed.

(** X12: an empty line, or a line of nothing but spaces, is answered
    with the validation message; no request is sent and the loop is in
    [Prompting]. *)
Theorem blank_line_is_rejected (w : World) (line : pystr) :
  spaces line ->
  main_body w line =
  ([Prompt prompt_text;
    Print (lit "Invalid input. Please enter a numeric Satellite ID.")], Ok Prompting).
Proof.
  intros H.
  assert (E : strip line = []).
  { unfold strip. rewrite (lstrip_by_all _ _ H). reflexivity. }
  apply main_body_invalid; rewrite E; [|reflexivity].
  rewrite lit_exit. discriminate.
Qed.

(** X13: a line that is not "exit" and holds a character that is no
    digit (a sign, a decimal point, an underscore, a space between
    digits, a letter) is answered with the validation message, also when
    [int] would have parsed it; no request is sent. *)
Theorem line_with_a_non_digit_is_rejected (w : World) (line : pystr) (c : codepoint) :
  lower (strip line) <> lit "exit" ->
  In c (strip line) ->
  isdigit_char c = false ->
  main_body w line =
  ([Prompt prompt_text;
    Print (lit "Invalid input. Please enter a numeric Satellite ID.")], Ok Prompting).
Proof.
  intros Hexit Hin Hc. apply main_body_invalid; [exact Hexit|].
  destruct (isdigit (strip line)) eqn:D; [|reflexivity].
  rewrite (isdigit_In _ _ D Hin) in Hc. discriminate.
Qed.

(** X14: the number of an accepted line is never negative: the fetcher
    is not called by the loop with a negative catalogue number. *)
Theorem accepted_number_is_not_negative (line : pystr) (satellite_id : Z) :
  accepted line satellite_id -> (0 <= satellite_id)%Z.
Proof.
  intros (_ & D & P). unfold py_int in P.
  set (t := lstrip_by int_space (strip line)) in P.
  assert (Hminus : forall r, t <> 45 :: r).
  { intros r E.
    assert (Hin : In 45 (strip line)).
    { apply (lstrip_by_In int_space). fold t. rewrite E. left; reflexivity. }
    pose proof (isdigit_In _ _ D Hin) as Hd. discriminate. }
  destruct t as [|c r].
  - cbn in P. discriminate.
  - destruct (c =? 45) eqn:E45.
    { apply N.eqb_eq in E45. subst c. exfalso. exact (Hminus r eq_refl). }
    assert (Hpos : exists u, match int_digits false 0 u with
                             | Some n =>
                                 if (0 <? int_max_str_digits)%nat &&
                                    (int_max_str_digits <? digit_count u)%nat
                                 then Raise ValueError
                                 else Ok n
                             | None => Raise ValueError
                             end = Ok satellite_id).
    { destruct (c =? 43); eexists; exact P. }
    destruct Hpos as (u & Hu).
    destruct (int_digits false 0 u) as [n|] eqn:Hn; [|discriminate].
    destruct (_ && _); [discriminate|]. injection Hu as <-.
    exact (int_digits_nonneg _ _ _ _ (Z.le_refl 0) Hn).
Qed.

(** X15: the decimal numeral of a natural number, with spaces around it
    or not, is accepted as that number (the limit on the number of
    digits permitting), and the request of the turn is the one for that
    number: what [str] writes of a catalogue number, the loop reads back. *)
Theorem canonical_numeral_is_accepted (w : World) (satellite_id : Z) (pre post : pystr) :
  (0 <= satellite_id)%Z ->
  spaces pre -> spaces post ->
  int_max_str_digits = 0%nat \/
    (length (py_str_int satellite_id) <= int_max_str_digits)%nat ->
  accepted (pre ++ py_str_int satellite_id ++ post) satellite_id /\
  http_requests (events (main_body w (pre ++ py_str_int satellite_id ++ post))) =
    [tle_request satellite_id].
Proof.
  intros Hn Hpre Hpost Hlimit.
  destruct (py_str_int_ascii_digits _ Hn) as [Hne Hd].
  assert (Hsp : Forall (fun c => isspace_char c = false) (py_str_int satellite_id)).
  { eapply Forall_impl; [exact Hd|]. intros c Hc. cbn beta. apply ascii_digit_facts, Hc. }
  assert (E : strip (pre ++ py_str_int satellite_id ++ post) = py_str_int satellite_id).
  { destruct (py_str_int satellite_id) as [|c v] eqn:Es; [congruence|].
    apply strip_by_wrapped; try assumption.
    - inversion Hsp; assumption.
    - apply lstrip_by_kept, Forall_rev, Hsp. }
  assert (Hline : accepted (pre ++ py_str_int satellite_id ++ post) satellite_id).
  { destruct (ascii_digit_line_accepted ucd_lower int_max_str_digits py_repr json_dumps w
                (pre ++ py_str_int satellite_id ++ post)) as [Hacc _].
    - rewrite E. split; assumption.
    - rewrite E. exact Hlimit.
    - rewrite E, (decimal_number_str _ Hn) in Hacc. exact Hacc. }
  split; [exact Hline|].
  destruct (main_body_http_requests w (pre ++ py_str_int satellite_id ++ post))
    as [Hnone | (n & (_ & _ & Hint) & Hreq)].
  - exfalso. rewrite (main_body_accepted_cases _ _ _ Hline) in Hnone.
    destruct (pipeline_effects w satellite_id) as (rest & Heff & _).
    cbn [events fst] in Hnone.
    change (http_requests (Prompt prompt_text :: ?t)) with (http_requests t) in Hnone.
    rewrite <- http_requests_effects, Heff in Hnone. discriminate.
  - destruct Hline as (_ & _ & Hint'). rewrite Hint in Hint'.
    injection Hint' as ->. exact Hreq.
Qed.

Lemma ascii_isdigit_char (c : codepoint) :
  c < 128 -> isdigit_char c = true -> 48 <= c <= 57.
Proof.
  intros Hc Hd.
  destruct (N.lt_ge_cases c 48) as [Hlo|Hlo]; [|destruct (N.le_gt_cases c 57) as [Hhi|Hhi]].
  - exfalso. revert Hd.
    unfold isdigit_char, isdecimal_char, decimal_ranges, other_digit_ranges, in_range.
    cbn [existsb fst snd].
    repeat match goal with
           | |- context [?a <=? c] =>
               replace (a <=? c) with false by (symmetry; apply N.leb_gt; lia)
           end.
    cbn. discriminate.
  - lia.
  - exfalso. revert Hd.
    unfold isdigit_char, isdecimal_char, decimal_ranges, other_digit_ranges, in_range.
    cbn [existsb fst snd].
    replace (c <=? 57) with false by (symmetry; apply N.leb_gt; lia).
    replace (48 <=? c) with true by (symmetry; apply N.leb_le; lia).
    repeat match goal with
           | |- context [?a <=? c] =>
               replace (a <=? c) with false by (symmetry; apply N.leb_gt; lia)
           end.
    cbn. discriminate.
Qed.

(** X18: on a line of ASCII characters the validation is sound: when the
    line passes [isdigit], it is made of the digits 0 to 9 and is
    accepted as the number they denote, so that [int] raises nothing
    (the limit on the number of digits permitting). *)
Theorem ascii_validation_is_sound (line : pystr) :
  Forall (fun c => c < 128) line ->
  isdigit (strip line) = true ->
  int_max_str_digits = 0%nat \/ (length (strip line) <= int_max_str_digits)%nat ->
  ascii_digits (strip line) /\
  py_int (strip line) = Ok (decimal_number (strip line)) /\
  accepted line (decimal_number (strip line)).
Proof.
  intros Hascii D Hlimit.
  assert (Hd : ascii_digits (strip line)).
  { split; [destruct (strip line); [discriminate|congruence]|].
    apply Forall_forall. intros c Hin. apply list_elem_of_In in Hin.
    apply ascii_isdigit_char; [|exact (isdigit_In _ _ D Hin)].
    rewrite Forall_forall in Hascii. apply Hascii, list_elem_of_In.
    unfold strip in Hin. exact (lstrip_by_In _ _ _ (rstrip_by_In _ _ _ Hin)). }
  split; [exact Hd|].
  destruct (ascii_digit_line_accepted ucd_lower int_max_str_digits no_repr no_repr
              (unreachable Exception) line Hd Hlimit) as [Hacc _].
  split; [apply Hacc|exact Hacc].
Qed.

(** *** Runs *)

(** X19: a run stops at the first turn that ends the loop or raises:
    once [main] has ended, in [Terminated] or with an exception, the
    lines that follow are not read, whatever they are. *)
Theorem ended_run_reads_no_more (before after : list (World * pystr)) :
  outcome (main before) <> Ok Prompting ->
  main (before ++ after) = main before.
Proof.
  induction before as [|[w line] before IH]; intros H; [contradiction H; reflexivity|].
  rewrite <- app_comm_cons, !main_cons in *.
  destruct (outcome (main_body w line)) as [[|]|e]; try reflexivity.
  cbn [outcome snd] in H. rewrite (IH H). reflexivity.
Qed.

End Turns.

(** ** The properties on sample runs *)

(** C1 as stated fails in three ways.  A status that is neither 2xx nor
    an error for [raise_for_status]: the service answers 300 with a JSON
    body, and [fetch_tle] returns that body, not [None].  A body that the
    decoder rejects with a [ValueError] that is no [JSONDecodeError] of
    [json] or of requests (as simplejson's is under requests before
    2.27): the exception leaves [fetch_tle].  A 200 answer with a valid
    body nested too deep for the decoder, which raises [RecursionError],
    a [RuntimeError]: the exception leaves [fetch_tle]. *)
Lemma fetch_tle_is_not_always_absent :
  (exists response,
     requests_get (answering 300 (Ok iss_elements)) (tle_request 25544) = Ok response /\
     is_2xx (status_code response) = false /\
     outcome (fetch_tle (answering 300 (Ok iss_elements)) 25544) = Ok iss_elements /\
     iss_elements <> PNone) /\
  (exists response,
     requests_get (answering 200 (Raise ValueError)) (tle_request 25544) = Ok response /\
     is_2xx (status_code response) = true /\
     response_json response = Raise ValueError /\
     outcome (fetch_tle (answering 200 (Raise ValueError)) 25544) = Raise ValueError) /\
  (exists response,
     requests_get (answering 200 (Raise RuntimeError)) (tle_request 25544) = Ok response /\
     is_2xx (status_code response) = true /\
     outcome (fetch_tle (answering 200 (Raise RuntimeError)) 25544) = Raise RuntimeError).
Proof.
  split; [|split].
  - eexists. split; [reflexivity|]. split; [reflexivity|].
    split; [reflexivity|discriminate].
  - eexists. split; [reflexivity|]. split; [reflexivity|]. split; reflexivity.
  - eexists. split; [reflexivity|]. split; reflexivity.
Qed.

Lemma fetch_tle_failures_are_absent_witness :
  outcome (fetch_tle (unreachable requests_ConnectionError) 25544) = Ok PNone /\
  outcome (fetch_tle (unreachable ReadTimeout) 25544) = Ok PNone /\
  outcome (fetch_tle (answering 404 (Ok iss_elements)) 25544) = Ok PNone /\
  outcome (fetch_tle (answering 500 (Ok iss_elements)) 25544) = Ok PNone /\
  outcome (fetch_tle (answering 200 (Raise requests_JSONDecodeError)) 25544) = Ok PNone /\
  outcome (fetch_tle (answering 200 (Ok iss_elements)) 25544) = Ok iss_elements.
Proof.
  refine (conj _ (conj _ (conj _ (conj _ (conj _ _))))).
  - apply (proj1 (fetch_tle_failures_are_absent _ 25544) requests_ConnectionError);
      [reflexivity | left; reflexivity].
  - apply (proj1 (fetch_tle_failures_are_absent _ 25544) ReadTimeout);
      [reflexivity | right; reflexivity].
  - eapply (proj1 (proj2 (fetch_tle_failures_are_absent _ 25544)));
      [reflexivity | cbn; lia].
  - eapply (proj1 (proj2 (fetch_tle_failures_are_absent _ 25544)));
      [reflexivity | cbn; lia].
  - eapply (proj1 (proj2 (proj2 (fetch_tle_failures_are_absent _ 25544))));
      [reflexivity | reflexivity | left; reflexivity].
  - eapply (proj2 (proj2 (proj2 (fetch_tle_failures_are_absent _ 25544))));
      reflexivity.
Defined.

Lemma superscript_two_is_not_rejected_witness :
  ucd_identity [0xB2] 0%nat = [0xB2] /\
  main_body ucd_identity 4300 no_repr no_repr (unreachable requests_ConnectionError) [0xB2] =
    ([Prompt prompt_text], Raise ValueError).
Proof.
  split; [reflexivity|].
  apply (superscript_two_is_not_rejected ucd_identity 4300 no_repr no_repr
           (unreachable requests_ConnectionError)).
  reflexivity.
Defined.

Lemma superscript_two_fails_to_parse_witness :
  ucd_identity [0xB2] 0%nat = [0xB2] /\
  isdigit (strip [0xB2]) = true /\
  py_int 4300 (strip [0xB2]) = Raise ValueError.
Proof.
  split; [reflexivity|].
  pose proof (superscript_two_fails_to_parse ucd_identity 4300 no_repr no_repr
                (unreachable requests_ConnectionError) eq_refl) as (H1 & H2 & _).
  split; [exact H1|exact H2].
Defined.

Lemma calculation_failures_are_absent_witness :
  outcome (calculate_satellite_position (faulty (Some ValueError) None) (PDict [])) = Ok None /\
  outcome (calculate_satellite_position (faulty (Some ValueError) None) (PList [])) = Ok None /\
  outcome (calculate_satellite_position (faulty (Some ValueError) None) iss_elements) = Ok None.
Proof.
  assert (Hlib : forall line1 line2 name e,
             skyfield_subpoint (faulty (Some ValueError) None) line1 line2 name = Raise e ->
             isinstance e Exception = true).
  { intros line1 line2 name e [= <-]. reflexivity. }
  refine (conj _ (conj _ _)).
  - apply (proj1 (proj2 (calculation_failures_are_absent _ (PDict []) Hlib))
             (lit "line1") KeyError); [left; reflexivity | reflexivity].
  - apply (proj1 (proj2 (calculation_failures_are_absent _ (PList []) Hlib))
             (lit "line1") TypeError); [left; reflexivity | reflexivity].
  - eapply (proj2 (proj2 (calculation_failures_are_absent _ iss_elements Hlib)));
      reflexivity.
Defined.


Lemma create_map_TestSat_witness :
  exists sat_map popup icon,
    outcome (create_map no_repr (answering 200 (Ok iss_elements))
                        latitude_51_50 longitude_minus_0_12 (PStr (lit "TestSat")))
      = Ok (Some sat_map) /\
    children sat_map =
      [ Marker (latitude_51_50, longitude_minus_0_12) popup icon;
        CircleMarker (latitude_51_50, longitude_minus_0_12) 10 (lit "TestSat")
                     (lit "crimson") true (lit "crimson") ] /\
    popup = lit "TestSat<br>Lat: 51.50" ++ [degree_sign] ++
            lit ", Lon: -0.12" ++ [degree_sign] /\
    contains (lit "Lat: 51.50" ++ [degree_sign] ++ lit ", Lon: -0.12" ++ [degree_sign])
             popup.
Proof.
  apply (create_map_TestSat no_repr (answering 200 (Ok iss_elements))).
  reflexivity.
Defined.

(** With the limit of 4300 digits that CPython has by default from
    version 3.11 on, a line of 4301 ones passes [isdigit] and [int] raises
    [ValueError] on it. *)
Lemma long_digit_line_fails_to_parse :
  isdigit (strip (repeat 49 4301)) = true /\
  py_int 4300 (strip (repeat 49 4301)) = Raise ValueError /\
  py_int 0 (strip (repeat 49 3)) = Ok 111%Z.
Proof. vm_compute. repeat split. Qed.

Lemma accepted_25544 :
  accepted ucd_identity 4300 (lit "25544") 25544%Z /\
  accepted ucd_identity 4300 (lit " 025544 ") 25544%Z.
Proof.
  split; (split; [intros H; vm_compute in H; discriminate|]);
    split; vm_compute; reflexivity.
Qed.

Lemma same_identifier_same_file_witness :
  saved (events (main_body ucd_identity 4300 no_repr no_repr
                   (answering 200 (Ok iss_elements)) (lit "25544"))) <> [] /\
  dom (files_after
         (events (main_body ucd_identity 4300 no_repr no_repr
                    (faulty None None) (lit " 025544 ")))
         (files_after
            (events (main_body ucd_identity 4300 no_repr no_repr
                       (answering 200 (Ok iss_elements)) (lit "25544"))) ∅)) =
  dom (files_after
         (events (main_body ucd_identity 4300 no_repr no_repr
                    (answering 200 (Ok iss_elements)) (lit "25544")))
         (∅ : gmap pystr FoliumMap)).
Proof.
  assert (Hsaved : saved (events (main_body ucd_identity 4300 no_repr no_repr
                    (answering 200 (Ok iss_elements)) (lit "25544"))) <> []).
  { vm_compute. discriminate. }
  split; [exact Hsaved|].
  exact (proj1 (proj2 (proj2 (proj2
           (same_identifier_same_file ucd_identity 4300 no_repr no_repr
              (answering 200 (Ok iss_elements)) (faulty None None)
              (lit "25544") (lit " 025544 ") 25544 ∅
              (proj1 accepted_25544) (proj2 accepted_25544))))) Hsaved).
Defined.

(** C9 as stated fails: a run with no "exit" line ends when an exception
    leaves a turn, since [main] catches none.  Here the file cannot be
    written; there the decoder raises on the answer of the service. *)
Lemma run_ends_without_exit :
  (Forall (fun turn => lower ucd_identity (strip (snd turn)) <> lit "exit")
          [ (read_only, lit "25544"); (read_only, lit "25544") ] /\
   outcome (main ucd_identity 4300 no_repr no_repr
              [ (read_only, lit "25544"); (read_only, lit "25544") ]) = Raise OSError /\
   prompts (events (main ucd_identity 4300 no_repr no_repr
                      [ (read_only, lit "25544"); (read_only, lit "25544") ])) =
     [prompt_text]) /\
  (lower ucd_identity (strip (lit "25544")) <> lit "exit" /\
   outcome (main ucd_identity 4300 no_repr no_repr
              [ (answering 200 (Raise RuntimeError), lit "25544") ]) = Raise RuntimeError).
Proof.
  assert (H : lower ucd_identity (strip (lit "25544")) <> lit "exit").
  { intros E. vm_compute in E. discriminate. }
  split; [|split; [exact H|vm_compute; reflexivity]].
  split; [repeat constructor; exact H|].
  split; vm_compute; reflexivity.
Qed.

Lemma loop_outlives_stage_failures_witness :
  main ucd_identity 4300 no_repr no_repr
    [ (unreachable requests_ConnectionError, lit "25544");
      (faulty (Some ValueError) None, lit "25544");
      (answering 200 (Ok iss_elements), lit "exit") ] =
  (events (main ucd_identity 4300 no_repr no_repr
             [ (unreachable requests_ConnectionError, lit "25544") ]) ++
   events (main_body ucd_identity 4300 no_repr no_repr
             (faulty (Some ValueError) None) (lit "25544")) ++
   events (main ucd_identity 4300 no_repr no_repr
             [ (answering 200 (Ok iss_elements), lit "exit") ]),
   Ok Terminated).
Proof.
  refine (proj2 (proj2 (proj1 (proj2
    (loop_outlives_stage_failures ucd_identity 4300 no_repr no_repr _))
    [ (unreachable requests_ConnectionError, lit "25544") ]
    (faulty (Some ValueError) None) (lit "25544") 25544%Z
    (lit "Failed to calculate satellite position.")
    [ (answering 200 (Ok iss_elements), lit "exit") ]
    eq_refl _ (proj1 accepted_25544) _))).
  - vm_compute. reflexivity.
  - apply (calculation_failed _ _ _ iss_elements); vm_compute; reflexivity.
Defined.

Lemma empty_object_is_absent_witness :
  outcome (fetch_tle (answering 200 (Ok (PDict []))) 25544) = Ok (PDict []) /\
  main_body ucd_identity 4300 no_repr no_repr (answering 200 (Ok (PDict []))) (lit "25544") =
  (Prompt prompt_text :: events (fetch_tle (answering 200 (Ok (PDict []))) 25544) ++
   [Print (lit "Failed to retrieve TLE data." ++ [10])], Ok Prompting).
Proof.
  split; [reflexivity|].
  apply (empty_object_is_absent ucd_identity 4300 no_repr no_repr
           (answering 200 (Ok (PDict []))) (lit "25544") 25544 (PDict [])).
  - exact (proj1 accepted_25544).
  - reflexivity.
  - left; reflexivity.
Defined.

(** *** Sample runs for the further properties *)

Lemma name_default_is_never_used_witness :
  exists name,
    py_getitem iss_elements (lit "name") = Ok name /\
    py_get iss_elements (lit "name") (PStr (lit "Unknown Satellite")) = Ok name.
Proof.
  apply (name_default_is_never_used (answering 200 (Ok iss_elements)) iss_elements
           (latitude_51_50, longitude_minus_0_12)).
  reflexivity.
Defined.

Lemma fetch_tle_error_records_witness :
  (error_records (events (fetch_tle (unreachable ReadTimeout) 25544)) = [] /\
   exists response,
     requests_get (unreachable ReadTimeout) (tle_request 25544) = Ok response /\
     response_json response = Ok PNone) \/
  (PNone = PNone /\
   exists record,
     error_records (events (fetch_tle (unreachable ReadTimeout) 25544)) = [record]).
Proof.
  apply (fetch_tle_error_records (unreachable ReadTimeout) 25544 PNone).
  reflexivity.
Defined.

Lemma successful_turn_witness :
  exists rest,
    effects (events (main_body ucd_identity 4300 no_repr no_repr
                       (answering 200 (Ok iss_elements)) (lit "25544"))) =
      Prompt prompt_text :: HttpGet (tle_request 25544) ::
      Save (map_filename_of 25544)
           (sat_map_of no_repr latitude_51_50 longitude_minus_0_12
                       (PStr (lit "ISS (ZARYA)"))) :: rest /\
    http_requests rest = [] /\
    saved rest = [] /\
    files_after (events (main_body ucd_identity 4300 no_repr no_repr
                           (answering 200 (Ok iss_elements)) (lit "25544")))
                (∅ : gmap pystr FoliumMap) !! map_filename_of 25544 =
      Some (sat_map_of no_repr latitude_51_50 longitude_minus_0_12
                       (PStr (lit "ISS (ZARYA)"))).
Proof.
  apply (successful_turn ucd_identity 4300 no_repr no_repr
           (answering 200 (Ok iss_elements)) (lit "25544") 25544 iss_elements
           (PStr (lit "ISS (ZARYA)")) latitude_51_50 longitude_minus_0_12).
  - exact (proj1 accepted_25544).
  - reflexivity.
  - reflexivity.
  - reflexivity.
  - reflexivity.
  - reflexivity.
  - reflexivity.
Defined.

Lemma save_failure_ends_the_loop_witness :
  outcome (main_body ucd_identity 4300 no_repr no_repr read_only (lit "25544")) =
    Raise OSError /\
  effects (events (main_body ucd_identity 4300 no_repr no_repr read_only (lit "25544"))) =
    [Prompt prompt_text; HttpGet (tle_request 25544)] /\
  main ucd_identity 4300 no_repr no_repr
       [ (read_only, lit "25544"); (read_only, lit "exit") ] =
    (events (main_body ucd_identity 4300 no_repr no_repr read_only (lit "25544")),
     Raise OSError).
Proof.
  apply (save_failure_ends_the_loop ucd_identity 4300 no_repr no_repr
           read_only (lit "25544") 25544 iss_elements (PStr (lit "ISS (ZARYA)"))
           latitude_51_50 longitude_minus_0_12
           (sat_map_of no_repr latitude_51_50 longitude_minus_0_12
                       (PStr (lit "ISS (ZARYA)")))).
  - exact (proj1 accepted_25544).
  - reflexivity.
  - reflexivity.
  - reflexivity.
  - reflexivity.
  - reflexivity.
  - reflexivity.
Defined.

Lemma blank_line_is_rejected_witness :
  main_body ucd_identity 4300 no_repr no_repr (unreachable ReadTimeout) (lit "   ") =
  ([Prompt prompt_text;
    Print (lit "Invalid input. Please enter a numeric Satellite ID.")], Ok Prompting) /\
  main_body ucd_identity 4300 no_repr no_repr (unreachable ReadTimeout) [] =
  ([Prompt prompt_text;
    Print (lit "Invalid input. Please enter a numeric Satellite ID.")], Ok Prompting).
Proof.
  split.
  - apply (blank_line_is_rejected ucd_identity 4300 no_repr no_repr). repeat constructor.
  - apply (blank_line_is_rejected ucd_identity 4300 no_repr no_repr). constructor.
Defined.

Lemma line_with_a_non_digit_is_rejected_witness :
  py_int 4300 (strip (lit "-5")) = Ok (-5)%Z /\
  main_body ucd_identity 4300 no_repr no_repr (unreachable ReadTimeout) (lit "-5") =
  ([Prompt prompt_text;
    Print (lit "Invalid input. Please enter a numeric Satellite ID.")], Ok Prompting).
Proof.
  split; [reflexivity|].
  apply (line_with_a_non_digit_is_rejected ucd_identity 4300 no_repr no_repr
           (unreachable ReadTimeout) (lit "-5") 45).
  - intros H. vm_compute in H. discriminate.
  - left. reflexivity.
  - reflexivity.
Defined.

Lemma accepted_number_is_not_negative_witness :
  accepted ucd_identity 4300 (lit "25544") 25544 /\ (0 <= 25544)%Z.
Proof.
  split; [exact (proj1 accepted_25544)|].
  exact (accepted_number_is_not_negative ucd_identity 4300 (lit "25544") 25544
           (proj1 accepted_25544)).
Defined.

Lemma canonical_numeral_is_accepted_witness :
  accepted ucd_identity 4300 (lit " " ++ py_str_int 25544 ++ [10]) 25544 /\
  http_requests (events (main_body ucd_identity 4300 no_repr no_repr
                           (unreachable ReadTimeout)
                           (lit " " ++ py_str_int 25544 ++ [10]))) =
    [tle_request 25544].
Proof.
  apply (canonical_numeral_is_accepted ucd_identity 4300 no_repr no_repr).
  - lia.
  - repeat constructor.
  - repeat constructor.
  - right. vm_compute. lia.
Defined.

Lemma unusable_answer_is_a_calculation_failure_witness :
  outcome (main_body ucd_identity 4300 no_repr no_repr
             (answering 200 (Ok (PList [PInt 1]))) (lit "25544")) = Ok Prompting /\
  effects (events (main_body ucd_identity 4300 no_repr no_repr
                     (answering 200 (Ok (PList [PInt 1]))) (lit "25544"))) =
    [ Prompt prompt_text; HttpGet (tle_request 25544);
      Print (lit "Failed to calculate satellite position.") ].
Proof.
  apply (unusable_answer_is_a_calculation_failure ucd_identity 4300 no_repr no_repr
           (answering 200 (Ok (PList [PInt 1]))) (lit "25544") 25544
           (PList [PInt 1]) (lit "line1") TypeError).
  - exact (proj1 accepted_25544).
  - reflexivity.
  - reflexivity.
  - left. reflexivity.
  - reflexivity.
Defined.

Lemma falsy_answer_is_a_retrieval_failure_witness :
  effects (events (main_body ucd_identity 4300 no_repr no_repr
                     (answering 200 (Ok (PStr []))) (lit "25544"))) =
    [ Prompt prompt_text; HttpGet (tle_request 25544);
      Print (lit "Failed to retrieve TLE data." ++ [10]) ] /\
  effects (events (main_body ucd_identity 4300 no_repr no_repr
                     (answering 200 (Ok (PList []))) (lit "25544"))) =
    [ Prompt prompt_text; HttpGet (tle_request 25544);
      Print (lit "Failed to retrieve TLE data." ++ [10]) ] /\
  (effects (events (main_body ucd_identity 4300 no_repr no_repr
                      (answering 200 (Ok (PList [PInt 0]))) (lit "25544"))) =
     [ Prompt prompt_text; HttpGet (tle_request 25544);
       Print (lit "Failed to retrieve TLE data." ++ [10]) ] <->
   absent_answer (PList [PInt 0])).
Proof.
  refine (conj _ (conj _ _)).
  - apply (proj1 (proj2 (falsy_answer_is_a_retrieval_failure
             ucd_identity 4300 no_repr no_repr (answering 200 (Ok (PStr [])))
             (lit "25544") 25544 (PStr []) (proj1 accepted_25544) eq_refl))).
    unfold absent_answer. auto 8.
  - apply (proj1 (proj2 (falsy_answer_is_a_retrieval_failure
             ucd_identity 4300 no_repr no_repr (answering 200 (Ok (PList [])))
             (lit "25544") 25544 (PList []) (proj1 accepted_25544) eq_refl))).
    unfold absent_answer. auto 8.
  - exact (proj1 (proj2 (falsy_answer_is_a_retrieval_failure
             ucd_identity 4300 no_repr no_repr (answering 200 (Ok (PList [PInt 0])))
             (lit "25544") 25544 (PList [PInt 0]) (proj1 accepted_25544) eq_refl))).
Defined.

Lemma ascii_validation_is_sound_witness :
  py_int 4300 (strip (lit " 007 ")) = Ok (decimal_number (strip (lit " 007 "))) /\
  decimal_number (strip (lit " 007 ")) = 7%Z.
Proof.
  split; [|reflexivity].
  apply (ascii_validation_is_sound ucd_identity 4300 (lit " 007 ")).
  - repeat constructor.
  - reflexivity.
  - right. vm_compute. lia.
Defined.

Lemma ended_run_reads_no_more_witness :
  main ucd_identity 4300 no_repr no_repr
       ([ (unreachable ReadTimeout, lit "exit") ] ++
        [ (answering 200 (Ok iss_elements), lit "25544") ]) =
  main ucd_identity 4300 no_repr no_repr [ (unreachable ReadTimeout, lit "exit") ].
Proof.
  apply (ended_run_reads_no_more ucd_identity 4300 no_repr no_repr).
  vm_compute. discriminate.
Defined.

